(** * Alarm access point (Raspberry Pi Pico W): HTTP control endpoint and
      actuator state machine

    Shallow embedding of [picow_access_point.c]: the request parser and the
    content generator ([alarm_control_content]), the connection callbacks
    ([tcp_server_recv], [tcp_server_sent], [tcp_server_poll],
    [tcp_server_err]) and the blink-and-beep machine ([update_alarm]).

    C strings are lists of characters read up to the first NUL; a pointer
    into a buffer is an index, and the string it points at is the buffer
    dropped to that index.  [int] values are integers in the 32-bit signed
    range, with the wrap-around of the arithmetic written out. *)

From Stdlib Require Import ZArith Lia Ascii String Bool.
From stdpp Require Import base list strings gmap.

Local Open Scope Z_scope.

(* ===================================================================== *)
(** ** The C library functions the program calls *)
(* ===================================================================== *)

Module LibC.

Definition NUL : ascii := Ascii.zero.

(** A string literal, without its terminator. *)
Definition chars (s : string) : list ascii := list_ascii_of_string s.

(** [*p]: past the end of the modelled storage a read gives the terminator. *)
Definition peek (s : list ascii) : ascii := default NUL (head s).

(** 32-bit [int] and [unsigned] views of an integer. *)
Definition INT_MAX : Z := 2147483647.
Definition INT_MIN : Z := -2147483648.
Definition to_int (x : Z) : Z := (x + 2 ^ 31) mod 2 ^ 32 - 2 ^ 31.
Definition to_unsigned (x : Z) : Z := x mod 2 ^ 32.

(** [strncmp(s1, s2, n) == 0] *)
Fixpoint strncmp_eq (s1 s2 : list ascii) (n : nat) : bool :=
  match n with
  | O => true
  | S k =>
      let c1 := peek s1 in
      let c2 := peek s2 in
      if Ascii.eqb c1 c2
      then if Ascii.eqb c1 NUL then true else strncmp_eq (tail s1) (tail s2) k
      else false
  end.

(** [strchr(s, c)]: offset of the first [c] in the string at [s], [None]
    for a null result.  The terminator itself is found when [c] is NUL. *)
Fixpoint strchr (s : list ascii) (c : ascii) : option nat :=
  match s with
  | [] => if Ascii.eqb c NUL then Some O else None
  | x :: r =>
      if Ascii.eqb x c then Some O
      else if Ascii.eqb x NUL then None
      else S <$> strchr r c
  end.

(** [snprintf(buf, n, ...)] once the format is expanded to [text]: at most
    [n - 1] characters and a terminator are stored, and the length the whole
    text would need is returned. *)
Definition snprintf (buf : list ascii) (n : nat) (text : list ascii)
  : list ascii * Z :=
  (match n with
   | O => buf
   | S m => let out := take m text in out ++ NUL :: drop (S (length out)) buf
   end,
   Z.of_nat (length text)).

(** *** [%d] on output *)

Definition digit_char (d : Z) : ascii := ascii_of_nat (48 + Z.to_nat d).

Fixpoint utoa (fuel : nat) (n : Z) (acc : list ascii) : list ascii :=
  let acc' := digit_char (n mod 10) :: acc in
  match fuel with
  | O => acc'
  | S f => if n / 10 =? 0 then acc' else utoa f (n / 10) acc'
  end.

Definition format_unsigned (n : Z) : list ascii :=
  utoa (Z.to_nat (Z.log2 n)) n [].

Definition format_int (n : Z) : list ascii :=
  if n <? 0 then "-"%char :: format_unsigned (- n) else format_unsigned n.

(** *** [%d] on input, and [sscanf] with a format "<literal>%d" *)

Definition isspace (c : ascii) : bool :=
  let n := nat_of_ascii c in
  Nat.eqb n 32 || (Nat.leb 9 n && Nat.leb n 13).

Definition isdigit (c : ascii) : bool :=
  let n := nat_of_ascii c in Nat.leb 48 n && Nat.leb n 57.

Definition digit_val (c : ascii) : Z := Z.of_nat (nat_of_ascii c) - 48.

Fixpoint skip_space (s : list ascii) : list ascii :=
  match s with
  | c :: r => if isspace c then skip_space r else s
  | [] => []
  end.

Fixpoint scan_digits (s : list ascii) (acc : Z) : Z :=
  match s with
  | c :: r => if isdigit c then scan_digits r (acc * 10 + digit_val c) else acc
  | [] => acc
  end.

(** The value stored for a digit sequence that does not fit an [int].  ISO C
    leaves it undefined; newlib, the C library of the Pico SDK toolchain,
    converts with [strtol], which saturates. *)
Definition strtol_int (v : Z) : Z := Z.max INT_MIN (Z.min INT_MAX v).

(** [%d]: white space is skipped, then an optional sign and at least one
    decimal digit are read. *)
Definition scan_int (s : list ascii) : option Z :=
  let s1 := skip_space s in
  let '(neg, s2) :=
    match s1 with
    | c :: r =>
        if Ascii.eqb c "-" then (true, r)
        else if Ascii.eqb c "+" then (false, r)
        else (false, s1)
    | [] => (false, s1)
    end in
  if isdigit (peek s2)
  then let v := scan_digits s2 0 in
       Some (strtol_int (if neg then - v else v))
  else None.

(** The ordinary characters of a format must match the input one for one. *)
Fixpoint match_literal (lit s : list ascii) : option (list ascii) :=
  match lit with
  | [] => Some s
  | l :: lit' =>
      match s with
      | c :: r => if Ascii.eqb c l then match_literal lit' r else None
      | [] => None
      end
  end.

(** [sscanf(s, "<lit>%d", &v) == 1], with the value stored in [v]. *)
Definition sscanf_lit_d (s : list ascii) (lit : string) : option Z :=
  match match_literal (chars lit) s with
  | Some rest => scan_int rest
  | None => None
  end.

End LibC.
Import LibC.


(* ===================================================================== *)
(** ** Pico SDK time and lwIP results *)
(* ===================================================================== *)

Module PicoSDK.

(** [absolute_time_t] is a 64-bit count of microseconds since boot. *)
Definition to_uint64 (x : Z) : Z := x mod 2 ^ 64.
Definition to_int64 (x : Z) : Z := (x + 2 ^ 63) mod 2 ^ 64 - 2 ^ 63.
Definition INT64_MAX : Z := 2 ^ 63 - 1.

Definition absolute_time_diff_us (from to : Z) : Z := to_int64 (to - from).

Definition delayed_by_us (t us : Z) : Z :=
  let delayed := to_uint64 (t + us) in
  if to_int64 delayed <? 0 then INT64_MAX else delayed.

End PicoSDK.
Import PicoSDK.

Module LwIP.

Inductive err_t :=
| ERR_OK | ERR_MEM | ERR_BUF | ERR_TIMEOUT | ERR_RTE | ERR_INPROGRESS
| ERR_VAL | ERR_WOULDBLOCK | ERR_USE | ERR_ALREADY | ERR_ISCONN | ERR_CONN
| ERR_IF | ERR_ABRT | ERR_RST | ERR_CLSD | ERR_ARG.

Global Instance err_t_eq_dec : EqDecision err_t.
Proof. solve_decision. Defined.

(** An IPv4 address as the 32-bit word of its four octets in memory order
    (first octet in the low byte). *)
Definition IP4_ADDR (a b c d : Z) : Z :=
  Z.lor (Z.lor (Z.land a 255) (Z.shiftl (Z.land b 255) 8))
        (Z.lor (Z.shiftl (Z.land c 255) 16) (Z.shiftl (Z.land d 255) 24)).

Definition ip4_addr_get_byte (addr : Z) (k : Z) : Z :=
  Z.land (Z.shiftr addr (8 * k)) 255.

Definition ipaddr_ntoa (addr : Z) : list ascii :=
  format_unsigned (ip4_addr_get_byte addr 0) ++ chars "." ++
  format_unsigned (ip4_addr_get_byte addr 1) ++ chars "." ++
  format_unsigned (ip4_addr_get_byte addr 2) ++ chars "." ++
  format_unsigned (ip4_addr_get_byte addr 3).

(** [u16_t] view, for the length argument of [tcp_write]. *)
Definition to_u16 (x : Z) : Z := x mod 2 ^ 16.

End LwIP.
Import LwIP.

(* ===================================================================== *)
(** ** Configuration *)
(* ===================================================================== *)

Definition PWM_WRAP : Z := 62500.
Definition BEEP_DURATION_MS : Z := 200.
Definition BEEP_INTERVAL_MS : Z := 100.

Definition TEMPO_POLLING : Z := 5.
Definition HTTP_GET : string := "GET".
Definition ALARM_CONTROL : string := "/alarm".

(** The ordinary characters of [ALARM_PARAM], before its [%d]. *)
Definition ALARM_PARAM : string := "alarm=".

Definition LF : ascii := ascii_of_nat 10.
Definition DQUOTE : ascii := ascii_of_nat 34.

(** [HTTP_RESPONSE_HEADERS] with its two [%d] filled in. *)
Definition HTTP_RESPONSE_HEADERS (status content_length : Z) : list ascii :=
  chars "HTTP/1.1 " ++ format_int status ++ chars " OK" ++ [LF] ++
  chars "Content-Length: " ++ format_int content_length ++ [LF] ++
  chars "Content-Type: text/html; charset=utf-8" ++ [LF] ++
  chars "Connection: close" ++ [LF; LF].

(** [ALARM_CONTROL_BODY] with [%s], [%d], [%s] filled in. *)
Definition ALARM_CONTROL_BODY (status : list ascii) (target : Z)
    (label : list ascii) : list ascii :=
  chars "<html><body style=" ++ [DQUOTE] ++
  chars "text-align:center;margin-top:50px" ++ [DQUOTE] ++ chars ">" ++
  chars "<h1>Alarme</h1>" ++
  chars "<p>" ++ status ++ chars "</p>" ++
  chars "<a href=" ++ [DQUOTE] ++ chars "?alarm=" ++ format_int target ++
  [DQUOTE] ++ chars " style=" ++ [DQUOTE] ++
  chars "background:#4CAF50;color:white;padding:5px 10px;text-decoration:none" ++
  [DQUOTE] ++ chars ">" ++ label ++ chars "</a>" ++
  chars "</body></html>".

(** [HTTP_RESPONSE_REDIRECT] with [%s] filled in. *)
Definition HTTP_RESPONSE_REDIRECT (host : list ascii) : list ascii :=
  chars "HTTP/1.1 302 Redirect" ++ [LF] ++
  chars "Location: http://" ++ host ++ chars ALARM_CONTROL ++ [LF; LF].

(* ===================================================================== *)
(** ** Data structures *)
(* ===================================================================== *)

Record TCP_SERVER_T := mkServer {
  server_pcb : bool;            (* the listening pcb is non-null *)
  complete : bool;
  gw : Z;
  alarm_active : bool;
  next_toggle_time : Z;
  beep_active : bool;
  beep_end_time : Z
}.

Definition set_alarm_active (b : bool) (s : TCP_SERVER_T) : TCP_SERVER_T :=
  mkServer (server_pcb s) (complete s) (gw s) b (next_toggle_time s)
           (beep_active s) (beep_end_time s).

Definition set_next_toggle_time (t : Z) (s : TCP_SERVER_T) : TCP_SERVER_T :=
  mkServer (server_pcb s) (complete s) (gw s) (alarm_active s) t
           (beep_active s) (beep_end_time s).

Definition set_beep_active (b : bool) (s : TCP_SERVER_T) : TCP_SERVER_T :=
  mkServer (server_pcb s) (complete s) (gw s) (alarm_active s)
           (next_toggle_time s) b (beep_end_time s).

Definition set_beep_end_time (t : Z) (s : TCP_SERVER_T) : TCP_SERVER_T :=
  mkServer (server_pcb s) (complete s) (gw s) (alarm_active s)
           (next_toggle_time s) (beep_active s) t.

(** The connection state; [gw] and [server_state] point into the one
    [TCP_SERVER_T], which the callbacks below receive explicitly. *)
Record TCP_CONNECT_STATE_T := mkConn {
  sent_len : Z;
  headers : list ascii;         (* char headers[128] *)
  result : list ascii;          (* char result[256] *)
  header_len : Z;
  result_len : Z
}.

Definition HEADERS_SIZE : nat := 128.
Definition RESULT_SIZE : nat := 256.

(** The outputs [update_alarm] drives, and its [static bool led_state]. *)
Record board := mkBoard {
  led_state : bool;
  red_led : bool;               (* level of RED_LED_GPIO *)
  buzzer_level : Z;             (* PWM level of PWM_GPIO *)
  display : string * string     (* the two lines of display_message *)
}.

(* ===================================================================== *)
(** ** Alarm control *)
(* ===================================================================== *)

(** The values of the successive [get_absolute_time()] calls of one
    [update_alarm]. *)
Record clock := mkClock {
  now_toggle_check : Z;
  now_beep_start : Z;
  now_next_toggle : Z;
  now_beep_check : Z
}.

Definition update_alarm (clk : clock) (state : TCP_SERVER_T) (hw : board)
  : TCP_SERVER_T * board :=
  if alarm_active state then
    let '(state1, hw1) :=
      if absolute_time_diff_us (now_toggle_check clk) (next_toggle_time state) <=? 0
      then
        let led := negb (led_state hw) in
        let '(state', level) :=
          if led
          then (set_beep_end_time
                  (delayed_by_us (now_beep_start clk) (BEEP_DURATION_MS * 1000))
                  (set_beep_active true state),
                PWM_WRAP / 2)
          else (set_beep_active false state, 0) in
        (set_next_toggle_time
           (delayed_by_us (now_next_toggle clk) (BEEP_INTERVAL_MS * 1000)) state',
         mkBoard led led level (display hw))
      else (state, hw) in
    let '(state2, hw2) :=
      if beep_active state1
         && (absolute_time_diff_us (now_beep_check clk) (beep_end_time state1) <=? 0)
      then (set_beep_active false state1,
            mkBoard (led_state hw1) (red_led hw1) 0 (display hw1))
      else (state1, hw1) in
    (state2,
     mkBoard (led_state hw2) (red_led hw2) (buzzer_level hw2)
             ("ALARME", "EVACUAR")%string)
  else
    (set_beep_active false state,
     mkBoard (led_state hw) false 0 ("Sistema", "em repouso")%string).

(* ===================================================================== *)
(** ** TCP/HTTP server *)
(* ===================================================================== *)

(** What lwIP answers to the calls of one callback. *)
Record lwip_results := mkLwip {
  write_headers_err : err_t;    (* first tcp_write *)
  write_result_err : err_t;     (* second tcp_write *)
  close_err : err_t             (* tcp_close *)
}.

(** What a callback leaves behind: its return value, the connection state
    ([None] once freed), the server state, the data accepted by [tcp_write]
    in order, and whether [tcp_abort] was called. *)
Record outcome := mkOutcome {
  ret : err_t;
  conn : option TCP_CONNECT_STATE_T;
  srv : TCP_SERVER_T;
  written : list (list ascii);
  aborted : bool
}.

(** [tcp_close_client_connection] on a live client pcb. *)
Definition tcp_close_client_connection (env : lwip_results)
    (state : TCP_SERVER_T) (wr : list (list ascii)) (close_e : err_t) : outcome :=
  if decide (close_err env = ERR_OK)
  then mkOutcome close_e None state wr false
  else mkOutcome ERR_ABRT None state wr true.

Definition tcp_server_sent (env : lwip_results) (con_state : TCP_CONNECT_STATE_T)
    (state : TCP_SERVER_T) (len : Z) : outcome :=
  let sent := to_int (sent_len con_state + len) in
  let con_state' :=
    mkConn sent (headers con_state) (result con_state)
           (header_len con_state) (result_len con_state) in
  if to_int (header_len con_state' + result_len con_state') <=? sent
  then tcp_close_client_connection env state [] ERR_OK
  else mkOutcome ERR_OK (Some con_state') state [] false.

Definition alarm_control_content (request : list ascii)
    (params : option (list ascii)) (result : list ascii) (max_result_len : nat)
    (state : TCP_SERVER_T) : Z * list ascii * TCP_SERVER_T :=
  if strncmp_eq request (chars ALARM_CONTROL) (length (chars ALARM_CONTROL))
  then
    let state1 :=
      match params with
      | Some ps =>
          match sscanf_lit_d ps ALARM_PARAM with
          | Some alarm_param => set_alarm_active (negb (alarm_param =? 0)) state
          | None => state
          end
      | None => state
      end in
    let '(result', len) :=
      if alarm_active state1
      then snprintf result max_result_len
             (ALARM_CONTROL_BODY (chars "ATIVADO") 0 (chars "Desligar"))
      else snprintf result max_result_len
             (ALARM_CONTROL_BODY (chars "DESATIVADO") 1 (chars "Ligar")) in
    (len, result', state1)
  else (0, result, state).

(** [pbuf_copy_partial(p, buf, len, 0)] *)
Definition pbuf_copy_partial (p buf : list ascii) (len : nat) : list ascii :=
  take len p ++ drop len buf.

(** The request line split in place: the buffer after the stores through
    [params] and [space], and the index [params] ends at when it is not null.
    [request] is the index [sizeof(HTTP_GET)]. *)
Definition split_request (hdrs : list ascii) (request : nat)
  : list ascii * option nat :=
  match strchr (drop request hdrs) "?" with
  | Some off =>
      let params := (request + off)%nat in
      if negb (Ascii.eqb (peek (drop params hdrs)) NUL)
      then
        let space := strchr (drop request hdrs) " " in
        let hdrs1 := <[params := NUL]> hdrs in
        let hdrs2 :=
          match space with
          | Some so => <[(request + so)%nat := NUL]> hdrs1
          | None => hdrs1
          end in
        (hdrs2, Some (S params))
      else (hdrs, None)
  | None => (hdrs, None)
  end.

(** [tcp_server_recv] from the capacity check on: [con_state] already holds
    the generated [result] and [result_len]. *)
Definition tcp_server_recv_respond (env : lwip_results)
    (con_state : TCP_CONNECT_STATE_T) (state : TCP_SERVER_T) : outcome :=
  if to_unsigned (Z.of_nat RESULT_SIZE) - 1 <? to_unsigned (result_len con_state)
  then tcp_close_client_connection env state [] ERR_CLSD
  else
    let built : outcome + list ascii * Z :=
      if 0 <? result_len con_state
      then
        let '(hdrs, hlen) :=
          snprintf (headers con_state) HEADERS_SIZE
            (HTTP_RESPONSE_HEADERS 200 (result_len con_state)) in
        if to_unsigned (Z.of_nat HEADERS_SIZE) - 1 <? to_unsigned hlen
        then inl (tcp_close_client_connection env state [] ERR_CLSD)
        else inr (hdrs, hlen)
      else
        inr (snprintf (headers con_state) HEADERS_SIZE
               (HTTP_RESPONSE_REDIRECT (ipaddr_ntoa (gw state)))) in
    match built with
    | inl closed => closed
    | inr (hdrs, hlen) =>
        let con_state1 :=
          mkConn 0 hdrs (result con_state) hlen (result_len con_state) in
        let hdr_data := take (Z.to_nat (to_u16 hlen)) hdrs in
        if decide (write_headers_err env = ERR_OK)
        then
          if result_len con_state =? 0
          then mkOutcome ERR_OK (Some con_state1) state [hdr_data] false
          else
            let body_data :=
              take (Z.to_nat (to_u16 (result_len con_state)))
                   (result con_state) in
            if decide (write_result_err env = ERR_OK)
            then mkOutcome ERR_OK (Some con_state1) state
                   [hdr_data; body_data] false
            else tcp_close_client_connection env state [hdr_data]
                   (write_result_err env)
        else tcp_close_client_connection env state [] (write_headers_err env)
    end.

(** [tcp_server_recv] once the payload is in [headers] (here [hdrs]): the
    method test, the split of the request line, content generation and the
    response. *)
Definition tcp_server_recv_request (env : lwip_results)
    (con_state : TCP_CONNECT_STATE_T) (state : TCP_SERVER_T)
    (hdrs : list ascii) : outcome :=
  if strncmp_eq (chars HTTP_GET) hdrs (length (chars HTTP_GET))
  then
    let request := S (length (chars HTTP_GET)) in
    let '(hdrs1, params) := split_request hdrs request in
    let '(len, result', state') :=
      alarm_control_content (drop request hdrs1)
        ((fun i => drop i hdrs1) <$> params)
        (result con_state) RESULT_SIZE state in
    tcp_server_recv_respond env
      (mkConn (sent_len con_state) hdrs1 result' (header_len con_state) len)
      state'
  else
    mkOutcome ERR_OK
      (Some (mkConn (sent_len con_state) hdrs (result con_state)
                    (header_len con_state) (result_len con_state)))
      state [] false.

(** The header buffer once a payload has been copied in: at most
    [sizeof(headers) - 1] bytes of it. *)
Definition received (con_state : TCP_CONNECT_STATE_T) (payload : list ascii)
  : list ascii :=
  pbuf_copy_partial payload (headers con_state)
    (if (HEADERS_SIZE - 1 <? length payload)%nat
     then (HEADERS_SIZE - 1)%nat else length payload).

(** [p] is [None] for a null pbuf; the payload of a pbuf is at most 65535
    bytes ([tot_len] is a [u16_t]). *)
Definition tcp_server_recv (env : lwip_results) (con_state : TCP_CONNECT_STATE_T)
    (state : TCP_SERVER_T) (p : option (list ascii)) : outcome :=
  match p with
  | None => tcp_close_client_connection env state [] ERR_OK
  | Some payload =>
      if (0 <? length payload)%nat
      then tcp_server_recv_request env con_state state (received con_state payload)
      else mkOutcome ERR_OK (Some con_state) state [] false
  end.

Definition tcp_server_poll (env : lwip_results) (state : TCP_SERVER_T) : outcome :=
  tcp_close_client_connection env state [] ERR_OK.

(** [tcp_server_err] returns nothing; [ret] records the error it closed with. *)
Definition tcp_server_err (env : lwip_results) (con_state : TCP_CONNECT_STATE_T)
    (state : TCP_SERVER_T) (err : err_t) : outcome :=
  if decide (err = ERR_ABRT)
  then mkOutcome ERR_OK (Some con_state) state [] false
  else tcp_close_client_connection env state [] err.

(** The connection state [tcp_server_accept] allocates with [calloc]. *)
Definition accepted_state : TCP_CONNECT_STATE_T :=
  mkConn 0 (replicate HEADERS_SIZE NUL) (replicate RESULT_SIZE NUL) 0 0.

(** The server state and outputs [main] sets up before its loop; [now] is the
    time read for [next_toggle_time]. *)
Definition main_state (now : Z) : TCP_SERVER_T :=
  mkServer true false (IP4_ADDR 192 168 4 1) false now false 0.

Definition main_board : board :=
  mkBoard false false 0 ("Iniciando", "sistema...")%string.

(** *** The life of one connection *)

Inductive event :=
| EvRecv (p : option (list ascii))
| EvSent (len : Z)
| EvPoll
| EvErr (err : err_t).

Definition deliver (env : lwip_results) (ev : event)
    (con_state : TCP_CONNECT_STATE_T) (state : TCP_SERVER_T) : outcome :=
  match ev with
  | EvRecv p => tcp_server_recv env con_state state p
  | EvSent len => tcp_server_sent env con_state state len
  | EvPoll => tcp_server_poll env state
  | EvErr err => tcp_server_err env con_state state err
  end.

(** Events reach the callbacks until the connection state is freed, which
    also unregisters them. *)
Fixpoint run (evs : list (lwip_results * event)) (con_state : TCP_CONNECT_STATE_T)
    (state : TCP_SERVER_T) : option TCP_CONNECT_STATE_T * TCP_SERVER_T :=
  match evs with
  | [] => (Some con_state, state)
  | (env, ev) :: rest =>
      let o := deliver env ev con_state state in
      match conn o with
      | Some con_state' => run rest con_state' (srv o)
      | None => (None, srv o)
      end
  end.

(** The ranges lwIP's types give the event arguments: both lengths are
    [u16_t]. *)
Definition event_ok (e : lwip_results * event) : Prop :=
  match e.2 with
  | EvRecv (Some payload) => Z.of_nat (length payload) < 65536
  | EvSent len => 0 <= len < 65536
  | _ => True
  end.

(* ===================================================================== *)
(** ** Vocabulary of the specification *)
(* ===================================================================== *)

(** The path of a request: the token after the method and its separator, up
    to the next space, [?] or terminator. *)
Definition is_path_char (c : ascii) : bool :=
  negb (Ascii.eqb c " ") && negb (Ascii.eqb c "?") && negb (Ascii.eqb c NUL).

Fixpoint token (s : list ascii) : list ascii :=
  match s with
  | c :: r => if is_path_char c then c :: token r else []
  | [] => []
  end.

Definition request_path (hdrs : list ascii) : list ascii :=
  token (drop (S (length (chars HTTP_GET))) hdrs).

(** The control page as the specification describes it: status text, the
    label of the button, and the value the button asks for. *)
Definition status_text (active : bool) : list ascii :=
  if active then chars "ATIVADO" else chars "DESATIVADO".

Definition button_label (active : bool) : list ascii :=
  if active then chars "Desligar" else chars "Ligar".

Definition button_target (active : bool) : Z := Z.b2z (negb active).

Definition control_page (active : bool) : list ascii :=
  ALARM_CONTROL_BODY (status_text active) (button_target active)
                     (button_label active).

(** The body a connection state holds: the first [result_len] bytes of
    [result]. *)
Definition body_of (con_state : TCP_CONNECT_STATE_T) : list ascii :=
  take (Z.to_nat (result_len con_state)) (result con_state).

(** The server-state invariant of the data model. *)
Definition beep_implies_alarm (state : TCP_SERVER_T) : Prop :=
  beep_active state = true -> alarm_active state = true.

(** Bounds that hold of every connection state the callbacks leave. *)
Definition conn_inv (c : TCP_CONNECT_STATE_T) : Prop :=
  0 <= sent_len c <= 382 /\ 0 <= header_len c <= 127 /\ 0 <= result_len c <= 255.

Definition env_ok : lwip_results := mkLwip ERR_OK ERR_OK ERR_OK.

(** A literal holds no terminator. *)
Definition no_nul (l : list ascii) : bool :=
  forallb (fun c => negb (Ascii.eqb c NUL)) l.

(** The state [alarm_control_content] renders: the toggle applied, if any. *)
Definition toggled (params : option (list ascii)) (state : TCP_SERVER_T)
  : TCP_SERVER_T :=
  match params with
  | Some ps =>
      match sscanf_lit_d ps ALARM_PARAM with
      | Some alarm_param => set_alarm_active (negb (alarm_param =? 0)) state
      | None => state
      end
  | None => state
  end.

(* ===================================================================== *)
(** ** The rest of the program: display, server set-up, main loop *)
(* ===================================================================== *)

(** [strlen]: the characters before the first terminator. *)
Fixpoint cstring (s : list ascii) : list ascii :=
  match s with
  | c :: r => if Ascii.eqb c NUL then [] else c :: cstring r
  | [] => []
  end.

Definition strlen (s : list ascii) : Z := Z.of_nat (length (cstring s)).


(** [(ssd1306_width - strlen(line) * 6) / 2] stored in an [int]: the
    subtraction and the division are done in [size_t].  [ssd1306_width] is
    defined in [inc/ssd1306.h], which is not among the sources; it is a
    parameter here. *)
Definition centred_x (ssd1306_width : Z) (line : list ascii) : Z :=
  to_int (to_unsigned (to_unsigned ssd1306_width
                       - to_unsigned (to_unsigned (strlen line) * 6)) / 2).


Definition set_server_pcb (b : bool) (s : TCP_SERVER_T) : TCP_SERVER_T :=
  mkServer b (complete s) (gw s) (alarm_active s) (next_toggle_time s)
           (beep_active s) (beep_end_time s).

Definition set_complete (b : bool) (s : TCP_SERVER_T) : TCP_SERVER_T :=
  mkServer (server_pcb s) b (gw s) (alarm_active s) (next_toggle_time s)
           (beep_active s) (beep_end_time s).

Definition tcp_server_close (state : TCP_SERVER_T) : TCP_SERVER_T :=
  if server_pcb state then set_server_pcb false state else state.

(** What lwIP answers to the calls of [tcp_server_open]: whether
    [tcp_new_ip_type] and [tcp_listen_with_backlog] return a pcb, and the
    result of [tcp_bind]. *)
Record open_results := mkOpen {
  new_pcb : bool;
  bind_err : err_t;
  listen_pcb : bool
}.

(** The result, the server state, and whether the pcb of [tcp_new_ip_type]
    is still allocated and unreferenced when the function returns. *)
Definition tcp_server_open (r : open_results) (state : TCP_SERVER_T)
  : bool * TCP_SERVER_T * bool :=
  if negb (new_pcb r) then (false, state, false)
  else if decide (bind_err r = ERR_OK)
  then
    let state' := set_server_pcb (listen_pcb r) state in
    if negb (listen_pcb r) then (false, state', false) else (true, state', false)
  else (false, state, true).

(** [client_pcb] is whether the pcb handed in is non-null, [calloc_ok] whether
    [calloc] returns memory. *)
Definition tcp_server_accept (err : err_t) (client_pcb calloc_ok : bool)
  : err_t * option TCP_CONNECT_STATE_T :=
  if negb (bool_decide (err = ERR_OK)) || negb client_pcb then (ERR_VAL, None)
  else if negb calloc_ok then (ERR_MEM, None)
  else (ERR_OK, Some accepted_state).

(** [key] is what [getchar_timeout_us(0)] returns. *)
Definition key_pressed_func (key : Z) (state : TCP_SERVER_T) : TCP_SERVER_T :=
  if (key =? Z.of_nat (nat_of_ascii "d")) || (key =? Z.of_nat (nat_of_ascii "D"))
  then set_complete true state
  else state.

(** *** The main loop *)

(** The server state, the outputs, and the connection states that
    [tcp_server_accept] has registered, by client pcb. *)
Record system := mkSystem {
  sys_server : TCP_SERVER_T;
  sys_board : board;
  sys_conns : gmap nat TCP_CONNECT_STATE_T
}.

(** What reaches the program between two runs of [update_alarm]: a key, a
    connection attempt, or an event on a client pcb.  The callbacks write
    [alarm_active] and [complete] only, which [update_alarm] reads once and
    never writes, so a callback that interrupts [update_alarm] has the effect
    of one that runs next to it. *)
Inductive input :=
| InKey (key : Z)
| InAccept (pcb : nat) (err : err_t) (client_pcb calloc_ok : bool)
| InConn (pcb : nat) (env : lwip_results) (ev : event).

Definition handle_input (i : input) (s : system) : system :=
  match i with
  | InKey key =>
      mkSystem (key_pressed_func key (sys_server s)) (sys_board s) (sys_conns s)
  | InAccept pcb err client_pcb calloc_ok =>
      match (tcp_server_accept err client_pcb calloc_ok).2 with
      | Some con_state =>
          mkSystem (sys_server s) (sys_board s) (<[pcb := con_state]> (sys_conns s))
      | None => s
      end
  | InConn pcb env ev =>
      match sys_conns s !! pcb with
      | Some con_state =>
          let o := deliver env ev con_state (sys_server s) in
          mkSystem (srv o) (sys_board s)
            match conn o with
            | Some con_state' => <[pcb := con_state']> (sys_conns s)
            | None => delete pcb (sys_conns s)
            end
      | None => s
      end
  end.

Record iteration := mkIteration {
  iter_clock : clock;
  iter_inputs : list input
}.

(** [while (!state->complete) { update_alarm(state); ... }], one element of
    [its] per turn that the loop is observed for. *)
Fixpoint main_loop (its : list iteration) (s : system) : system :=
  match its with
  | [] => s
  | it :: rest =>
      if complete (sys_server s) then s
      else
        let '(state, hw) :=
          update_alarm (iter_clock it) (sys_server s) (sys_board s) in
        main_loop rest
          (foldl (fun s i => handle_input i s) (mkSystem state hw (sys_conns s))
                 (iter_inputs it))
  end.

(** What [main] meets before its loop. *)
Record boot := mkBoot {
  state_calloc_ok : bool;
  cyw43_arch_init : Z;
  open_res : open_results;
  boot_time : Z
}.

(** [main]: the value returned, [None] while the loop is still running after
    [its], and the system as it is then. *)
Definition main (b : boot) (its : list iteration) : option Z * option system :=
  if negb (state_calloc_ok b) then (Some 1, None)
  else if negb (cyw43_arch_init b =? 0) then (Some 1, None)
  else
    let state0 := mkServer false false (IP4_ADDR 192 168 4 1) false
                    (boot_time b) false 0 in
    let '(opened, state1, _) := tcp_server_open (open_res b) state0 in
    if negb opened then (Some 1, Some (mkSystem state1 main_board ∅))
    else
      let s := main_loop its
                 (mkSystem (set_complete false state1) main_board ∅) in
      if complete (sys_server s)
      then
        (Some 0,
         Some (mkSystem (tcp_server_close (sys_server s))
                 (mkBoard (led_state (sys_board s)) false 0
                          (display (sys_board s)))
                 (sys_conns s)))
      else (None, Some s).

(** The outputs agree with the pulse flag: the buzzer is driven exactly while
    [beep_active] is set, and only with the LED lit. *)
Definition outputs_coherent (state : TCP_SERVER_T) (hw : board) : Prop :=
  buzzer_level hw = (if beep_active state then PWM_WRAP / 2 else 0)
  /\ (beep_active state = true -> red_led hw = true)
  /\ (red_led hw = true -> led_state hw = true).

(** Both buffers have their declared size and end in a terminator. *)
Definition buffers_ok (c : TCP_CONNECT_STATE_T) : Prop :=
  length (headers c) = HEADERS_SIZE
  /\ headers c !! (HEADERS_SIZE - 1)%nat = Some NUL
  /\ length (result c) = RESULT_SIZE
  /\ result c !! (RESULT_SIZE - 1)%nat = Some NUL.

(** A token of a request line: no space, no terminator. *)
Definition token_chars (l : list ascii) : bool :=
  forallb (fun x => negb (Ascii.eqb x " ") && negb (Ascii.eqb x NUL)) l.

(** Whether a key stops the main loop. *)
Definition is_stop_key (i : input) : bool :=
  match i with
  | InKey key =>
      (key =? Z.of_nat (nat_of_ascii "d")) || (key =? Z.of_nat (nat_of_ascii "D"))
  | _ => false
  end.


(** The method of a request: the token at the start of the buffer, up to the
    next space or terminator. *)
Fixpoint method_token (s : list ascii) : list ascii :=
  match s with
  | c :: r =>
      if Ascii.eqb c " " || Ascii.eqb c NUL then [] else c :: method_token r
  | [] => []
  end.



(** No key of [its] stops the main loop. *)
Definition no_stop_key (its : list iteration) : bool :=
  forallb (fun it => forallb (fun i => negb (is_stop_key i)) (iter_inputs it)) its.

(* ===================================================================== *)
(** ** Facts about the library functions *)
(* ===================================================================== *)

Lemma strncmp_eq_comm (s1 s2 : list ascii) (n : nat) :
  strncmp_eq s1 s2 n = strncmp_eq s2 s1 n.
Proof.
  revert s1 s2; induction n as [|n IH]; intros s1 s2; simpl; [done|].
  destruct (Ascii.eqb_spec (peek s1) (peek s2)) as [E|E].
  - rewrite <- E, Ascii.eqb_refl.
    destruct (Ascii.eqb (peek s1) NUL); [done|apply IH].
  - destruct (Ascii.eqb_spec (peek s2) (peek s1)); congruence.
Qed.

(** Comparing against a literal over its whole length tests a prefix. *)
Lemma strncmp_eq_literal (lit s : list ascii) :
  no_nul lit = true ->
  strncmp_eq s lit (length lit) = true <-> take (length lit) s = lit.
Proof.
  revert s; induction lit as [|l lit IH]; intros s Hn.
  - simpl. by rewrite take_0.
  - cbn [no_nul forallb] in Hn. apply andb_true_iff in Hn as [Hl Hn].
    apply negb_true_iff in Hl.
    destruct s as [|c r]; cbn [length strncmp_eq peek head default from_option tail take id]; unfold id.
    + rewrite Ascii.eqb_sym, Hl. split; discriminate.
    + destruct (Ascii.eqb_spec c l) as [->|Hne].
      * rewrite Hl, (IH r Hn). split; intros H; [by f_equal|by injection H].
      * split; [discriminate|]. intros H; injection H; congruence.
Qed.

Lemma isdigit_digit_char (d : Z) : 0 <= d <= 9 -> isdigit (digit_char d) = true.
Proof.
  intros H. assert (Hd : d ∈ [0; 1; 2; 3; 4; 5; 6; 7; 8; 9]).
  { rewrite !elem_of_cons. lia. }
  rewrite !elem_of_cons in Hd.
  destruct Hd as [->|[->|[->|[->|[->|[->|[->|[->|[->|[->|Hd]]]]]]]]]];
    [reflexivity..|by apply elem_of_nil in Hd].
Qed.

Lemma digit_val_digit_char (d : Z) : 0 <= d <= 9 -> digit_val (digit_char d) = d.
Proof.
  intros H. assert (Hd : d ∈ [0; 1; 2; 3; 4; 5; 6; 7; 8; 9]).
  { rewrite !elem_of_cons. lia. }
  rewrite !elem_of_cons in Hd.
  destruct Hd as [->|[->|[->|[->|[->|[->|[->|[->|[->|[->|Hd]]]]]]]]]];
    [reflexivity..|by apply elem_of_nil in Hd].
Qed.

(** A digit is neither white space nor a sign. *)
Lemma isdigit_plain (c : ascii) :
  isdigit c = true ->
  isspace c = false /\ Ascii.eqb c "-" = false /\ Ascii.eqb c "+" = false.
Proof.
  destruct c as [[] [] [] [] [] [] [] []]; vm_compute; intros H;
    first [discriminate H | done].
Qed.

Lemma log2_div10 (n : Z) (f : nat) :
  0 <= n -> n / 10 <> 0 -> Z.log2 n <= Z.of_nat (S f) ->
  Z.log2 (n / 10) <= Z.of_nat f.
Proof.
  intros Hn Hq Hl.
  assert (0 < n / 10) by (pose proof (Z.div_pos n 10); lia).
  assert (2 * (n / 10) <= n) by (pose proof (Z.mul_div_le n 10); lia).
  pose proof (Z.log2_double (n / 10) ltac:(lia)).
  pose proof (Z.log2_le_mono (2 * (n / 10)) n ltac:(lia)). lia.
Qed.

(** Reading back the digits [utoa] writes: the scan continues after them
    with the number written. *)
Lemma scan_digits_utoa (fuel : nat) (n : Z) (acc : list ascii) :
  0 <= n -> Z.log2 n <= Z.of_nat fuel ->
  scan_digits (utoa fuel n acc) 0 = scan_digits acc n.
Proof.
  revert n acc; induction fuel as [|f IH]; intros n acc Hn Hl.
  - assert (n < 2).
    { destruct (Z.eq_dec n 0) as [->|Hne]; [lia|].
      assert (E : Z.log2 n = 0) by (pose proof (Z.log2_nonneg n); lia).
      pose proof (Z.log2_spec n ltac:(lia)) as Hs. rewrite E in Hs.
      change (2 ^ Z.succ 0) with 2 in Hs. lia. }
    cbn [utoa scan_digits].
    rewrite Z.mod_small by lia.
    rewrite isdigit_digit_char, digit_val_digit_char by lia. done.
  - pose proof (Z.mod_pos_bound n 10 ltac:(lia)).
    pose proof (Z.div_mod n 10 ltac:(lia)).
    cbn [utoa]. destruct (Z.eqb_spec (n / 10) 0) as [Hq|Hq].
    + cbn [scan_digits].
      rewrite isdigit_digit_char, digit_val_digit_char by lia.
      f_equal. lia.
    + rewrite IH; [|apply Z.div_pos; lia|by apply log2_div10].
      cbn [scan_digits].
      rewrite isdigit_digit_char, digit_val_digit_char by lia.
      f_equal. lia.
Qed.

Lemma utoa_head_digit (fuel : nat) (n : Z) (acc : list ascii) :
  0 <= n -> isdigit (peek (utoa fuel n acc)) = true.
Proof.
  revert n acc; induction fuel as [|f IH]; intros n acc Hn; cbn [utoa].
  - apply isdigit_digit_char. pose proof (Z.mod_pos_bound n 10); lia.
  - destruct (n / 10 =? 0).
    + apply isdigit_digit_char. pose proof (Z.mod_pos_bound n 10); lia.
    + apply IH, Z.div_pos; lia.
Qed.

Lemma utoa_app (fuel : nat) (n : Z) (acc : list ascii) :
  utoa fuel n acc = utoa fuel n [] ++ acc.
Proof.
  revert n acc; induction fuel as [|f IH]; intros n acc; cbn [utoa]; [done|].
  destruct (n / 10 =? 0); [done|].
  rewrite IH, (IH _ [_]), <- app_assoc. done.
Qed.

Lemma scan_int_unsigned (s : list ascii) :
  isdigit (peek s) = true -> scan_int s = Some (strtol_int (scan_digits s 0)).
Proof.
  destruct s as [|c r]; [discriminate|]. intros Hc. change (peek (c :: r)) with c in Hc.
  destruct (isdigit_plain c Hc) as (Hs & Hm & Hp).
  unfold scan_int. cbn [skip_space]. rewrite Hs, Hm, Hp.
  change (peek (c :: r)) with c. by rewrite Hc.
Qed.

Lemma scan_int_minus (s : list ascii) :
  isdigit (peek s) = true ->
  scan_int ("-"%char :: s) = Some (strtol_int (- scan_digits s 0)).
Proof.
  intros Hc. unfold scan_int. cbn [skip_space].
  change (isspace "-") with false. cbn match.
  change (Ascii.eqb "-" "-") with true. cbn match. by rewrite Hc.
Qed.

(** [%d] reads back what [%d] wrote, whatever non-digit follows. *)
Lemma scan_int_format_int (n : Z) (rest : list ascii) :
  INT_MIN <= n <= INT_MAX -> isdigit (peek rest) = false ->
  scan_int (format_int n ++ rest) = Some n.
Proof.
  intros Hr Hrest.
  assert (Hscan : forall m, 0 <= m ->
            scan_digits (format_unsigned m ++ rest) 0 = m).
  { intros m Hm. unfold format_unsigned. rewrite <- utoa_app.
    rewrite scan_digits_utoa by lia.
    destruct rest as [|c r]; [done|].
    change (peek (c :: r)) with c in Hrest. cbn [scan_digits]. by rewrite Hrest. }
  assert (Hhead : forall m, 0 <= m ->
            isdigit (peek (format_unsigned m ++ rest)) = true).
  { intros m Hm. unfold format_unsigned.
    pose proof (utoa_head_digit (Z.to_nat (Z.log2 m)) m [] Hm) as Hd.
    destruct (utoa _ m []) as [|c r]; [discriminate Hd|]. exact Hd. }
  unfold format_int, strtol_int, INT_MIN, INT_MAX in *.
  destruct (Z.ltb_spec n 0) as [Hneg|Hpos].
  - rewrite <- app_comm_cons, scan_int_minus by (apply Hhead; lia).
    rewrite Hscan by lia. unfold strtol_int, INT_MIN, INT_MAX. f_equal. lia.
  - rewrite scan_int_unsigned by (apply Hhead; lia).
    rewrite Hscan by lia. unfold strtol_int, INT_MIN, INT_MAX. f_equal. lia.
Qed.

Lemma snprintf_fits (buf : list ascii) (n : nat) (text : list ascii) :
  (length text < n)%nat ->
  (snprintf buf n text).2 = Z.of_nat (length text) /\
  take (length text) (snprintf buf n text).1 = text.
Proof.
  intros Hlen. unfold snprintf. destruct n as [|m]; [lia|].
  cbn [fst snd]. split; [done|].
  rewrite (take_ge text m) by lia. by rewrite take_app_length.
Qed.

(* ===================================================================== *)
(** ** The content generator *)
(* ===================================================================== *)

Lemma control_page_length (active : bool) : length (control_page active) = 205%nat.
Proof. by destruct active. Qed.

Lemma alarm_control_content_control (request : list ascii)
    (params : option (list ascii)) (result : list ascii) (state : TCP_SERVER_T) :
  take (length (chars ALARM_CONTROL)) request = chars ALARM_CONTROL ->
  alarm_control_content request params result RESULT_SIZE state =
    (205,
     (snprintf result RESULT_SIZE
        (control_page (alarm_active (toggled params state)))).1,
     toggled params state).
Proof.
  intros Hreq. apply strncmp_eq_literal in Hreq; [|done].
  unfold alarm_control_content. rewrite Hreq. fold (toggled params state).
  by destruct (alarm_active (toggled params state)).
Qed.

Lemma alarm_control_content_other (request : list ascii)
    (params : option (list ascii)) (result : list ascii) (n : nat)
    (state : TCP_SERVER_T) :
  take (length (chars ALARM_CONTROL)) request <> chars ALARM_CONTROL ->
  alarm_control_content request params result n state = (0, result, state).
Proof.
  intros Hreq. unfold alarm_control_content.
  destruct (strncmp_eq request _ _) eqn:E; [|done].
  apply strncmp_eq_literal in E; done.
Qed.

(** The generator returns 0 or the 205 bytes of the page, so the capacity
    check of the receive callback is never met by its output. *)
Lemma generated_length (request : list ascii) (params : option (list ascii))
    (result : list ascii) (state : TCP_SERVER_T) :
  let len := (alarm_control_content request params result RESULT_SIZE state).1.1 in
  len = 0 \/ len = 205.
Proof.
  destruct (decide (take (length (chars ALARM_CONTROL)) request
                    = chars ALARM_CONTROL)).
  - right. by rewrite alarm_control_content_control.
  - left. by rewrite alarm_control_content_other.
Qed.



Lemma sscanf_alarm_param (s : list ascii) :
  sscanf_lit_d (chars ALARM_PARAM ++ s) ALARM_PARAM = scan_int s.
Proof. reflexivity. Qed.

(** C10. For every [int] value [n], the parameter [alarm=<n>] is accepted
    and sets [alarm_active] to the truth value of [n != 0]. *)
Theorem C10_any_int_arms_unless_zero (n : Z) (request rest result : list ascii)
    (state : TCP_SERVER_T) :
  INT_MIN <= n <= INT_MAX ->
  take (length (chars ALARM_CONTROL)) request = chars ALARM_CONTROL ->
  isdigit (peek rest) = false ->
  let params := chars ALARM_PARAM ++ format_int n ++ rest in
  sscanf_lit_d params ALARM_PARAM = Some n
  /\ alarm_active
       (alarm_control_content request (Some params) result RESULT_SIZE state).2
     = negb (n =? 0).
Proof.
  intros Hn Hreq Hrest params.
  assert (Hscan : sscanf_lit_d params ALARM_PARAM = Some n).
  { unfold params. rewrite sscanf_alarm_param. by apply scan_int_format_int. }
  split; [done|].
  rewrite alarm_control_content_control by done.
  cbn [snd toggled]. by rewrite Hscan.
Qed.

Lemma C10_any_int_arms_unless_zero_witness :
  let params := chars ALARM_PARAM ++ format_int (-1) ++ [] in
  sscanf_lit_d params ALARM_PARAM = Some (-1)
  /\ alarm_active
       (alarm_control_content (chars "/alarm") (Some params)
          (replicate RESULT_SIZE NUL) RESULT_SIZE (main_state 0)).2
     = negb (-1 =? 0).
Proof.
  apply (C10_any_int_arms_unless_zero (-1) (chars "/alarm") []
           (replicate RESULT_SIZE NUL) (main_state 0)).
  - unfold INT_MIN, INT_MAX. lia.
  - reflexivity.
  - reflexivity.
Defined.

Example alarm_2_arms :
  alarm_active
    (alarm_control_content (chars "/alarm") (Some (chars "alarm=2"))
       (replicate RESULT_SIZE NUL) RESULT_SIZE (main_state 0)).2 = true.
Proof. reflexivity. Qed.

Example alarm_minus_1_arms :
  alarm_active
    (alarm_control_content (chars "/alarm") (Some (chars "alarm=-1"))
       (replicate RESULT_SIZE NUL) RESULT_SIZE (main_state 0)).2 = true.
Proof. reflexivity. Qed.

(* ===================================================================== *)
(** ** The receive callback *)
(* ===================================================================== *)

Lemma tcp_server_recv_payload (env : lwip_results) (c : TCP_CONNECT_STATE_T)
    (state : TCP_SERVER_T) (payload : list ascii) :
  payload <> [] ->
  tcp_server_recv env c state (Some payload) =
    tcp_server_recv_request env c state (received c payload).
Proof. intros Hp. by destruct payload. Qed.

Lemma get_method_test (hdrs : list ascii) :
  strncmp_eq (chars HTTP_GET) hdrs (length (chars HTTP_GET)) = true
  <-> take (length (chars HTTP_GET)) hdrs = chars HTTP_GET.
Proof. rewrite strncmp_eq_comm. by apply strncmp_eq_literal. Qed.

(** C6, amended.  A received request whose buffer does not begin with the
    three characters [GET] generates no content and writes nothing: the
    callback only stores the bytes and returns [ERR_OK] with the connection
    still open. *)
Theorem C6_non_get_dropped (env : lwip_results) (c : TCP_CONNECT_STATE_T)
    (state : TCP_SERVER_T) (payload : list ascii) :
  payload <> [] ->
  take (length (chars HTTP_GET)) (received c payload) <> chars HTTP_GET ->
  tcp_server_recv env c state (Some payload) =
    mkOutcome ERR_OK
      (Some (mkConn (sent_len c) (received c payload) (result c)
                    (header_len c) (result_len c)))
      state [] false.
Proof.
  intros Hp Hget. rewrite tcp_server_recv_payload by done.
  unfold tcp_server_recv_request.
  destruct (strncmp_eq (chars HTTP_GET) _ _) eqn:E; [|done].
  by apply get_method_test in E.
Qed.

Lemma C6_non_get_dropped_witness :
  tcp_server_recv env_ok accepted_state (main_state 0)
    (Some (chars "POST /alarm?alarm=1 HTTP/1.1")) =
    mkOutcome ERR_OK
      (Some (mkConn 0
               (received accepted_state (chars "POST /alarm?alarm=1 HTTP/1.1"))
               (replicate RESULT_SIZE NUL) 0 0))
      (main_state 0) [] false.
Proof.
  apply (C6_non_get_dropped env_ok accepted_state (main_state 0)
           (chars "POST /alarm?alarm=1 HTTP/1.1")).
  - discriminate.
  - vm_compute. discriminate.
Defined.

(** C6 as stated fails: the method is tested over three characters only, so
    a request whose method token is [GETFOO] is answered with the redirect,
    and one whose method token begins [GETT] reaches the content generator
    and arms the alarm. *)
Lemma C6_counterexample :
  let p1 := chars "GETFOO / HTTP/1.1" in
  let p2 := chars "GETT/alarm?alarm=1 HTTP/1.1" in
  let o1 := tcp_server_recv env_ok accepted_state (main_state 0) (Some p1) in
  let o2 := tcp_server_recv env_ok accepted_state (main_state 0) (Some p2) in
  (method_token (received accepted_state p1) = chars "GETFOO"
   /\ method_token (received accepted_state p1) <> chars HTTP_GET
   /\ written o1 = [HTTP_RESPONSE_REDIRECT (chars "192.168.4.1")]
   /\ written o1 <> [])
  /\ (method_token (received accepted_state p2) = chars "GETT/alarm?alarm=1"
      /\ method_token (received accepted_state p2) <> chars HTTP_GET
      /\ alarm_active (srv o2) = true
      /\ written o2 = [HTTP_RESPONSE_HEADERS 200 205; control_page true]).
Proof. vm_compute. repeat split; discriminate. Qed.

(** C8. When the generated body length exceeds what the body buffer holds,
    the connection is closed with [ERR_CLSD] before anything is written, and
    the server state is left as it was. *)
Theorem C8_body_too_large_closes (env : lwip_results) (c : TCP_CONNECT_STATE_T)
    (state : TCP_SERVER_T) :
  Z.of_nat RESULT_SIZE - 1 < result_len c <= INT_MAX ->
  let o := tcp_server_recv_respond env c state in
  conn o = None /\ written o = [] /\ srv o = state
  /\ (close_err env = ERR_OK -> ret o = ERR_CLSD /\ aborted o = false)
  /\ (close_err env <> ERR_OK -> ret o = ERR_ABRT /\ aborted o = true).
Proof.
  intros [Hlo Hhi] o. subst o. unfold tcp_server_recv_respond.
  assert (E : (to_unsigned (Z.of_nat RESULT_SIZE) - 1
               <? to_unsigned (result_len c)) = true).
  { apply Z.ltb_lt. unfold to_unsigned, RESULT_SIZE, INT_MAX in *.
    rewrite (Z.mod_small (result_len c)) by lia.
    rewrite Z.mod_small by lia. lia. }
  rewrite E. unfold tcp_close_client_connection.
  destruct (decide (close_err env = ERR_OK)); cbn [conn written srv ret aborted];
    repeat split; intros; done.
Qed.

Lemma C8_body_too_large_closes_witness :
  let c := mkConn 0 (replicate HEADERS_SIZE NUL) (replicate RESULT_SIZE NUL) 0 300 in
  let o := tcp_server_recv_respond env_ok c (main_state 0) in
  conn o = None /\ written o = [] /\ srv o = main_state 0
  /\ (close_err env_ok = ERR_OK -> ret o = ERR_CLSD /\ aborted o = false)
  /\ (close_err env_ok <> ERR_OK -> ret o = ERR_ABRT /\ aborted o = true).
Proof.
  apply (C8_body_too_large_closes env_ok
           (mkConn 0 (replicate HEADERS_SIZE NUL) (replicate RESULT_SIZE NUL) 0 300)
           (main_state 0)).
  unfold RESULT_SIZE, INT_MAX. cbn. lia.
Defined.

(** *** The response stage *)

Lemma format_unsigned_octet (b : Z) :
  0 <= b <= 255 -> (length (format_unsigned b) <= 3)%nat.
Proof.
  intros Hb.
  assert (Hall : forallb (fun k => length (format_unsigned (Z.of_nat k)) <=? 3)%nat
                   (seq 0 256) = true) by (vm_compute; reflexivity).
  rewrite forallb_forall in Hall. specialize (Hall (Z.to_nat b)).
  rewrite Z2Nat.id in Hall by lia. apply Nat.leb_le, Hall, in_seq. lia.
Qed.

Lemma ip4_addr_get_byte_range (addr k : Z) : 0 <= ip4_addr_get_byte addr k <= 255.
Proof.
  unfold ip4_addr_get_byte. change 255 with (Z.ones 8) at 1 2.
  rewrite Z.land_ones by lia. change (Z.ones 8) with 255.
  pose proof (Z.mod_pos_bound (Z.shiftr addr (8 * k)) (2 ^ 8) ltac:(lia)). lia.
Qed.

Lemma redirect_length (addr : Z) :
  (length (HTTP_RESPONSE_REDIRECT (ipaddr_ntoa addr)) <= 62)%nat.
Proof.
  unfold HTTP_RESPONSE_REDIRECT, ipaddr_ntoa. rewrite !length_app.
  pose proof (format_unsigned_octet _ (ip4_addr_get_byte_range addr 0)).
  pose proof (format_unsigned_octet _ (ip4_addr_get_byte_range addr 1)).
  pose proof (format_unsigned_octet _ (ip4_addr_get_byte_range addr 2)).
  pose proof (format_unsigned_octet _ (ip4_addr_get_byte_range addr 3)).
  change (length (chars "HTTP/1.1 302 Redirect")) with 21%nat.
  change (length (chars "Location: http://")) with 17%nat.
  change (length (chars ALARM_CONTROL)) with 6%nat.
  change (length (chars ".")) with 1%nat.
  change (length [LF]) with 1%nat. change (length [LF; LF]) with 2%nat. lia.
Qed.

(** The data handed to [tcp_write] when the formatted text fits the buffer. *)
Lemma snprintf_data (buf : list ascii) (n : nat) (text : list ascii) :
  (length text < n)%nat -> Z.of_nat (length text) < 65536 ->
  take (Z.to_nat (to_u16 (snprintf buf n text).2)) (snprintf buf n text).1 = text.
Proof.
  intros Hn Hu. destruct (snprintf_fits buf n text Hn) as [-> Hfit].
  unfold to_u16. rewrite Z.mod_small by lia. by rewrite Nat2Z.id.
Qed.

(** With no body, the response is the redirect to the control endpoint on
    the gateway address. *)
Lemma respond_redirect (env : lwip_results) (c : TCP_CONNECT_STATE_T)
    (state : TCP_SERVER_T) :
  result_len c = 0 ->
  let redirect := HTTP_RESPONSE_REDIRECT (ipaddr_ntoa (gw state)) in
  tcp_server_recv_respond env c state =
    if decide (write_headers_err env = ERR_OK)
    then mkOutcome ERR_OK
           (Some (mkConn 0 (snprintf (headers c) HEADERS_SIZE redirect).1
                         (result c) (Z.of_nat (length redirect)) 0))
           state [redirect] false
    else tcp_close_client_connection env state [] (write_headers_err env).
Proof.
  intros Hlen redirect. unfold tcp_server_recv_respond. rewrite Hlen.
  change (to_unsigned (Z.of_nat RESULT_SIZE) - 1 <? to_unsigned 0) with false.
  change (0 <? 0) with false. change (0 =? 0) with true. cbv iota.
  fold redirect.
  pose proof (redirect_length (gw state)) as Hr. fold redirect in Hr.
  pose proof (snprintf_data (headers c) HEADERS_SIZE redirect
                ltac:(unfold HEADERS_SIZE; lia) ltac:(lia)) as Hdata.
  destruct (snprintf (headers c) HEADERS_SIZE redirect) as [hdrs hlen] eqn:E.
  assert (hlen = Z.of_nat (length redirect))
    by (by apply (f_equal snd) in E).
  cbn [fst snd] in *. rewrite Hdata. by subst hlen.
Qed.

Lemma page_headers_length :
  length (HTTP_RESPONSE_HEADERS 200 205) = 94%nat.
Proof. reflexivity. Qed.

(** With the 205-byte page as body, the response is a 200 header and the
    body. *)
Lemma respond_page (env : lwip_results) (c : TCP_CONNECT_STATE_T)
    (state : TCP_SERVER_T) :
  result_len c = 205 ->
  let hdr := HTTP_RESPONSE_HEADERS 200 205 in
  let c' := mkConn 0 (snprintf (headers c) HEADERS_SIZE hdr).1 (result c) 94 205 in
  tcp_server_recv_respond env c state =
    if decide (write_headers_err env = ERR_OK)
    then if decide (write_result_err env = ERR_OK)
         then mkOutcome ERR_OK (Some c') state [hdr; take 205 (result c)] false
         else tcp_close_client_connection env state [hdr] (write_result_err env)
    else tcp_close_client_connection env state [] (write_headers_err env).
Proof.
  intros Hlen hdr c'. unfold tcp_server_recv_respond. rewrite Hlen.
  change (to_unsigned (Z.of_nat RESULT_SIZE) - 1 <? to_unsigned 205) with false.
  change (0 <? 205) with true. change (205 =? 0) with false. cbv iota.
  fold hdr.
  assert (Hdata : take (Z.to_nat (to_u16 (snprintf (headers c) HEADERS_SIZE hdr).2))
                    (snprintf (headers c) HEADERS_SIZE hdr).1 = hdr).
  { apply snprintf_data; subst hdr; rewrite page_headers_length;
      unfold HEADERS_SIZE; lia. }
  subst c'.
  destruct (snprintf (headers c) HEADERS_SIZE hdr) as [hdrs hlen] eqn:E.
  assert (hlen = 94) by (by apply (f_equal snd) in E).
  cbn [fst snd] in *. subst hlen.
  change (to_unsigned (Z.of_nat HEADERS_SIZE) - 1 <? to_unsigned 94) with false.
  cbv iota. by rewrite Hdata.
Qed.

(** The response stage leaves the server state alone. *)
Lemma respond_srv (env : lwip_results) (c : TCP_CONNECT_STATE_T)
    (state : TCP_SERVER_T) :
  srv (tcp_server_recv_respond env c state) = state.
Proof.
  assert (Hclose : forall wr e,
            srv (tcp_close_client_connection env state wr e) = state).
  { intros wr e. unfold tcp_close_client_connection. by destruct (decide _). }
  unfold tcp_server_recv_respond.
  destruct (_ <? _); [apply Hclose|].
  destruct (0 <? result_len c); destruct (snprintf _ _ _) as [hdrs hlen];
    [destruct (_ <? _); [apply Hclose|]|];
    (destruct (decide _); [|apply Hclose]);
    (destruct (result_len c =? 0); [done|]);
    (destruct (decide _); [done|apply Hclose]).
Qed.

(** *** The request line *)

Lemma insert_nul_lookup (l : list ascii) (j i : nat) :
  <[j:=NUL]> l !! i = l !! i \/ <[j:=NUL]> l !! i = Some NUL.
Proof.
  destruct (decide (j = i)) as [->|Hne].
  - destruct (decide (i < length l)%nat).
    + right. by apply list_lookup_insert_eq.
    + left. by rewrite list_insert_ge by lia.
  - left. by apply list_lookup_insert_ne.
Qed.

(** Splitting the request line only ever stores terminators. *)
Lemma split_request_lookup (hdrs : list ascii) (request i : nat) :
  (split_request hdrs request).1 !! i = hdrs !! i
  \/ (split_request hdrs request).1 !! i = Some NUL.
Proof.
  unfold split_request.
  destruct (strchr (drop request hdrs) "?") as [off|]; [|by left].
  destruct (negb _); [|by left].
  destruct (strchr (drop request hdrs) " ") as [so|]; cbn [fst].
  - destruct (insert_nul_lookup (<[(request + off)%nat:=NUL]> hdrs)
                (request + so) i) as [-> | ->]; [|by right].
    apply insert_nul_lookup.
  - apply insert_nul_lookup.
Qed.

Lemma no_nul_lookup (lit : list ascii) (k : nat) (c : ascii) :
  no_nul lit = true -> lit !! k = Some c -> c <> NUL.
Proof.
  intros Hn Hk. unfold no_nul in Hn. rewrite forallb_forall in Hn.
  specialize (Hn c). rewrite <- list_elem_of_In in Hn.
  specialize (Hn (list_elem_of_lookup_2 _ _ _ Hk)).
  apply negb_true_iff in Hn. by destruct (Ascii.eqb_spec c NUL).
Qed.

(** A literal found at [request] after the split was already there. *)
Lemma literal_prefix_survives (hdrs hdrs' lit : list ascii) (request : nat) :
  (forall i, hdrs' !! i = hdrs !! i \/ hdrs' !! i = Some NUL) ->
  no_nul lit = true ->
  take (length lit) (drop request hdrs') = lit ->
  take (length lit) (drop request hdrs) = lit.
Proof.
  intros Hl Hn Ht. apply list_eq. intros k.
  destruct (decide (k < length lit)%nat) as [Hk|Hk].
  - rewrite lookup_take_lt, lookup_drop by done.
    assert (Hk' : lit !! k = hdrs' !! (request + k)%nat).
    { rewrite <- Ht at 1. by rewrite lookup_take_lt, lookup_drop. }
    destruct (lit !! k) as [c|] eqn:Ec.
    + destruct (Hl (request + k)%nat) as [E|E]; [congruence|].
      rewrite E in Hk'. injection Hk' as ->.
      by destruct (no_nul_lookup lit k NUL Hn Ec).
    + apply lookup_ge_None in Ec. lia.
  - rewrite lookup_take_ge by lia. symmetry. apply lookup_ge_None. lia.
Qed.

Lemma token_control_prefix (s : list ascii) :
  take (length (chars ALARM_CONTROL)) s = chars ALARM_CONTROL ->
  chars ALARM_CONTROL `prefix_of` token s.
Proof.
  intros Ht. rewrite <- (take_drop (length (chars ALARM_CONTROL)) s), Ht.
  exists (token (drop (length (chars ALARM_CONTROL)) s)). reflexivity.
Qed.

(** What a GET request is answered with, by what [request] begins with once
    the line is split. *)
Lemma recv_request_get (env : lwip_results) (c : TCP_CONNECT_STATE_T)
    (state : TCP_SERVER_T) (hdrs : list ascii) :
  take (length (chars HTTP_GET)) hdrs = chars HTTP_GET ->
  let request := S (length (chars HTTP_GET)) in
  let hdrs1 := (split_request hdrs request).1 in
  let params := (fun i => drop i hdrs1) <$> (split_request hdrs request).2 in
  tcp_server_recv_request env c state hdrs =
    if decide (take (length (chars ALARM_CONTROL)) (drop request hdrs1)
               = chars ALARM_CONTROL)
    then
      let state' := toggled params state in
      tcp_server_recv_respond env
        (mkConn (sent_len c) hdrs1
           (snprintf (result c) RESULT_SIZE
              (control_page (alarm_active state'))).1
           (header_len c) 205)
        state'
    else
      tcp_server_recv_respond env
        (mkConn (sent_len c) hdrs1 (result c) (header_len c) 0) state.
Proof.
  intros Hget request hdrs1 params. unfold tcp_server_recv_request.
  apply get_method_test in Hget. rewrite Hget.
  fold request. subst hdrs1 params.
  destruct (split_request hdrs request) as [hdrs1 params]. cbn [fst snd].
  destruct (decide _) as [E|E].
  - by rewrite alarm_control_content_control.
  - by rewrite alarm_control_content_other.
Qed.

(** C1, amended.  A GET request whose path does not begin with [/alarm]
    generates no body and is answered with the 302 redirect to [/alarm] on
    the gateway address, whatever the alarm state, which it leaves as it
    was. *)
Theorem C1_other_paths_redirect (env : lwip_results) (c : TCP_CONNECT_STATE_T)
    (state : TCP_SERVER_T) (payload : list ascii) :
  payload <> [] ->
  take (length (chars HTTP_GET)) (received c payload) = chars HTTP_GET ->
  ~ chars ALARM_CONTROL `prefix_of` request_path (received c payload) ->
  let o := tcp_server_recv env c state (Some payload) in
  let redirect := HTTP_RESPONSE_REDIRECT (ipaddr_ntoa (gw state)) in
  let '(hdrs1, params) :=
    split_request (received c payload) (S (length (chars HTTP_GET))) in
  alarm_control_content (drop (S (length (chars HTTP_GET))) hdrs1)
    ((fun i => drop i hdrs1) <$> params) (result c) RESULT_SIZE state
    = (0, result c, state)
  /\ srv o = state
  /\ (write_headers_err env = ERR_OK ->
      ret o = ERR_OK /\ written o = [redirect]
      /\ exists c', conn o = Some c' /\ result_len c' = 0
                    /\ header_len c' = Z.of_nat (length redirect)
                    /\ sent_len c' = 0)
  /\ (write_headers_err env <> ERR_OK -> written o = [] /\ conn o = None).
Proof.
  intros Hp Hget Hpath o redirect. subst o.
  rewrite tcp_server_recv_payload, recv_request_get by done.
  set (hdrs := received c payload) in *.
  pose proof (split_request_lookup hdrs (S (length (chars HTTP_GET)))) as Hl.
  destruct (split_request hdrs _) as [hdrs1 params]. cbn [fst snd] in *.
  assert (Hne : take (length (chars ALARM_CONTROL))
                  (drop (S (length (chars HTTP_GET))) hdrs1)
                <> chars ALARM_CONTROL).
  { intros E. apply Hpath, token_control_prefix.
    by apply (literal_prefix_survives hdrs hdrs1). }
  destruct (decide _) as [E|_]; [done|].
  split; [by apply alarm_control_content_other|].
  rewrite respond_redirect by done. fold redirect.
  unfold tcp_close_client_connection.
  destruct (decide (write_headers_err env = ERR_OK)) as [Hw|Hw].
  - cbn [srv ret written conn]. split; [done|]. split; [|done].
    intros _. repeat split. eexists. split; [done|]. done.
  - destruct (decide (close_err env = ERR_OK)); cbn [srv ret written conn];
      (split; [done|]); (split; [done|]); done.
Qed.

Lemma C1_other_paths_redirect_witness :
  let o := tcp_server_recv env_ok accepted_state (main_state 0)
             (Some (chars "GET / HTTP/1.1")) in
  srv o = main_state 0
  /\ ret o = ERR_OK
  /\ written o = [HTTP_RESPONSE_REDIRECT (chars "192.168.4.1")]
  /\ (result_len <$> conn o) = Some 0.
Proof.
  intros o.
  assert (Hpath : ~ chars ALARM_CONTROL
                    `prefix_of` request_path
                      (received accepted_state (chars "GET / HTTP/1.1"))).
  { intros [k Hk]. vm_compute in Hk. discriminate Hk. }
  pose proof (C1_other_paths_redirect env_ok accepted_state (main_state 0)
                (chars "GET / HTTP/1.1") ltac:(discriminate) eq_refl Hpath) as H.
  cbv zeta in H. fold o in H.
  destruct (split_request _ _) as [hdrs1 params] in H.
  destruct H as (_ & Hsrv & Hok & _).
  destruct (Hok eq_refl) as (Hret & Hwr & c' & Hc & Hlen & _).
  rewrite Hc. cbn [fmap option_fmap option_map]. rewrite Hlen. done.
Defined.

(** C1 as stated fails: the path [/alarmes] is not [/alarm], yet a body is
    generated and the answer is the 200 page, not a redirect. *)
Lemma C1_counterexample :
  let payload := chars "GET /alarmes HTTP/1.1" in
  let hdrs := received accepted_state payload in
  let o := tcp_server_recv env_ok accepted_state (main_state 0) (Some payload) in
  take 3 hdrs = chars HTTP_GET
  /\ request_path hdrs = chars "/alarmes"
  /\ request_path hdrs <> chars ALARM_CONTROL
  /\ (result_len <$> conn o) = Some 205
  /\ written o = [HTTP_RESPONSE_HEADERS 200 205; control_page false]
  /\ written o <> [HTTP_RESPONSE_REDIRECT (ipaddr_ntoa (gw (main_state 0)))].
Proof. vm_compute. repeat split; discriminate. Qed.

Lemma strchr_found (s : list ascii) (c : ascii) (k : nat) :
  strchr s c = Some k -> peek (drop k s) = c.
Proof.
  revert k; induction s as [|x r IH]; intros k; cbn [strchr].
  - destruct (Ascii.eqb_spec c NUL) as [->|]; [|done]. by intros [= <-].
  - destruct (Ascii.eqb_spec x c) as [->|Hne]; [by intros [= <-]|].
    destruct (Ascii.eqb x NUL); [done|].
    destruct (strchr r c) as [j|]; [|done].
    intros [= <-]. by apply IH.
Qed.

(** Once a [?] is found, [params] is never null: the test [*params] reads the
    [?] itself, so the branch that clears [params] is never taken. *)
Lemma split_request_query_mark (hdrs : list ascii) (request off : nat) :
  strchr (drop request hdrs) "?" = Some off ->
  (split_request hdrs request).2 = Some (S (request + off)).
Proof.
  intros Hq. unfold split_request. rewrite Hq.
  apply strchr_found in Hq. rewrite drop_drop in Hq. rewrite Hq.
  change (negb (Ascii.eqb "?" NUL)) with true. cbv iota.
  by destruct (strchr (drop request hdrs) " ").
Qed.

(** C5, on the code.  For [GET /alarm?] followed by the end of the buffer the
    parser leaves [params] non-null, pointing at an empty string; the claim
    says it is absent.  The response equals the one to [GET /alarm]. *)
Theorem C5_bare_query_mark_leaves_empty_param :
  let hdrs := received accepted_state (chars "GET /alarm?") in
  let '(hdrs1, params) := split_request hdrs (S (length (chars HTTP_GET))) in
  peek (drop 11 hdrs) = NUL
  /\ params = Some 11%nat
  /\ params <> None
  /\ peek (drop 11 hdrs1) = NUL
  /\ written (tcp_server_recv env_ok accepted_state (main_state 0)
                (Some (chars "GET /alarm?")))
     = written (tcp_server_recv env_ok accepted_state (main_state 0)
                  (Some (chars "GET /alarm")))
  /\ srv (tcp_server_recv env_ok accepted_state (main_state 0)
            (Some (chars "GET /alarm?")))
     = main_state 0.
Proof. vm_compute. repeat split; discriminate. Qed.

(** *** Arming requests *)

Lemma received_prefix (c : TCP_CONNECT_STATE_T) (pre rest : list ascii) :
  (length pre <= HEADERS_SIZE - 1)%nat ->
  exists tail, received c (pre ++ rest) = pre ++ tail.
Proof.
  intros Hpre. unfold received, pbuf_copy_partial.
  set (n := if (_ <? _)%nat then _ else _).
  assert (Hn : (length pre <= n)%nat).
  { subst n. destruct (_ <? _)%nat; [done|]. rewrite length_app. lia. }
  rewrite take_app_ge, <- app_assoc by done. eauto.
Qed.

Lemma strchr_app_skip (pre tail : list ascii) (c : ascii) :
  forallb (fun x => negb (Ascii.eqb x c) && negb (Ascii.eqb x NUL)) pre = true ->
  strchr (pre ++ tail) c = (fun k => (length pre + k)%nat) <$> strchr tail c.
Proof.
  induction pre as [|x pre IH]; intros Hpre.
  - cbn [app length]. by destruct (strchr tail c).
  - cbn [forallb] in Hpre. apply andb_true_iff in Hpre as [Hx Hpre].
    apply andb_true_iff in Hx as [Hc Hz].
    apply negb_true_iff in Hc, Hz.
    cbn [app strchr]. rewrite Hc, Hz, (IH Hpre).
    by destruct (strchr tail c).
Qed.

Lemma split_arm_request (tail : list ascii) :
  exists tail',
    split_request (chars "GET /alarm?alarm=1" ++ tail) (S (length (chars HTTP_GET)))
    = (chars "GET /alarm" ++ NUL :: chars "alarm=1" ++ tail', Some 11%nat).
Proof.
  unfold split_request.
  assert (Hq : strchr (drop (S (length (chars HTTP_GET)))
                         (chars "GET /alarm?alarm=1" ++ tail)) "?" = Some 6%nat)
    by reflexivity.
  rewrite Hq.
  change (peek (drop _ (chars "GET /alarm?alarm=1" ++ tail))) with "?"%char.
  change (negb (Ascii.eqb "?" NUL)) with true. cbv iota.
  change (drop (S (length (chars HTTP_GET))) (chars "GET /alarm?alarm=1" ++ tail))
    with (chars "/alarm?alarm=1" ++ tail).
  rewrite strchr_app_skip by reflexivity.
  destruct (strchr tail " ") as [k|]; cbn [fmap option_fmap option_map].
  - exists (<[k:=NUL]> tail). reflexivity.
  - exists tail. reflexivity.
Qed.

Lemma scan_digits_ge (s : list ascii) (acc : Z) :
  0 <= acc -> acc <= scan_digits s acc.
Proof.
  revert acc; induction s as [|c r IH]; intros acc Hacc; cbn [scan_digits]; [lia|].
  destruct (isdigit c) eqn:Hc; [|lia].
  assert (0 <= digit_val c).
  { unfold isdigit in Hc. apply andb_true_iff in Hc as [Hlo _].
    apply Nat.leb_le in Hlo. unfold digit_val. lia. }
  etrans; [|apply IH]; lia.
Qed.

(** [alarm=1], whatever follows it, is read as a non-zero value. *)
Lemma toggled_alarm_1 (tail : list ascii) (state : TCP_SERVER_T) :
  toggled (Some (chars "alarm=1" ++ tail)) state = set_alarm_active true state.
Proof.
  unfold toggled.
  change (chars "alarm=1" ++ tail) with (chars ALARM_PARAM ++ "1"%char :: tail).
  rewrite sscanf_alarm_param, scan_int_unsigned by reflexivity.
  cbn [scan_digits]. change (isdigit "1") with true. cbv iota.
  change (0 * 10 + digit_val "1") with 1.
  pose proof (scan_digits_ge tail 1 ltac:(lia)).
  unfold strtol_int, INT_MIN, INT_MAX.
  destruct (Z.eqb_spec (Z.max (-2147483648) (Z.min 2147483647 (scan_digits tail 1))) 0);
    [lia|done].
Qed.

(** What any request beginning [GET /alarm?alarm=1] does: the alarm is armed,
    and when both writes are accepted the response is the 200 header and the
    page of the armed state. *)
Lemma recv_arm_request (env : lwip_results) (c : TCP_CONNECT_STATE_T)
    (state : TCP_SERVER_T) (rest : list ascii) :
  let o := tcp_server_recv env c state
             (Some (chars "GET /alarm?alarm=1" ++ rest)) in
  srv o = set_alarm_active true state
  /\ (write_headers_err env = ERR_OK -> write_result_err env = ERR_OK ->
      written o = [HTTP_RESPONSE_HEADERS 200 205; control_page true]
      /\ (body_of <$> conn o) = Some (control_page true)
      /\ ret o = ERR_OK).
Proof.
  intros o. subst o.
  destruct (received_prefix c (chars "GET /alarm?alarm=1") rest) as [tail Hrecv].
  { vm_compute. lia. }
  rewrite tcp_server_recv_payload by done. rewrite Hrecv.
  rewrite recv_request_get by reflexivity.
  destruct (split_arm_request tail) as [tail' ->]. cbn [fst snd].
  destruct (decide _) as [_|Hne]; [|by destruct Hne].
  cbn [fmap option_fmap option_map].
  change (drop 11 (chars "GET /alarm" ++ NUL :: chars "alarm=1" ++ tail'))
    with (chars "alarm=1" ++ tail').
  rewrite toggled_alarm_1. split; [apply respond_srv|].
  intros Hw1 Hw2. rewrite respond_page by reflexivity.
  rewrite !decide_True by done.
  cbn [srv written conn ret fmap option_fmap option_map result alarm_active
       set_alarm_active].
  pose proof (snprintf_fits (result c) RESULT_SIZE (control_page true)
                ltac:(vm_compute; lia)) as [_ Hfit].
  rewrite control_page_length in Hfit.
  unfold body_of. cbn [result_len result]. change (Z.to_nat 205) with 205%nat.
  by rewrite Hfit.
Qed.

(** C9. Processing [GET /alarm?alarm=1] twice in succession leaves
    [alarm_active] true after each request, and (the writes being accepted)
    the two response bodies are byte for byte the same. *)
Theorem C9_arming_twice_idempotent (env1 env2 : lwip_results)
    (c1 c2 : TCP_CONNECT_STATE_T) (state : TCP_SERVER_T)
    (rest1 rest2 : list ascii) :
  let request := chars "GET /alarm?alarm=1" in
  let o1 := tcp_server_recv env1 c1 state (Some (request ++ rest1)) in
  let o2 := tcp_server_recv env2 c2 (srv o1) (Some (request ++ rest2)) in
  alarm_active (srv o1) = true
  /\ alarm_active (srv o2) = true
  /\ srv o2 = srv o1
  /\ (write_headers_err env1 = ERR_OK -> write_result_err env1 = ERR_OK ->
      write_headers_err env2 = ERR_OK -> write_result_err env2 = ERR_OK ->
      (body_of <$> conn o1) = Some (control_page true)
      /\ (body_of <$> conn o2) = (body_of <$> conn o1)
      /\ written o1 = [HTTP_RESPONSE_HEADERS 200 205; control_page true]
      /\ written o2 = written o1).
Proof.
  intros request o1 o2.
  destruct (recv_arm_request env1 c1 state rest1) as (Hs1 & Hok1).
  destruct (recv_arm_request env2 c2 (srv o1) rest2) as (Hs2 & Hok2).
  fold request o1 in Hs1, Hok1. fold request o2 in Hs2, Hok2.
  split; [by rewrite Hs1|]. split; [by rewrite Hs2|].
  split; [rewrite Hs2, Hs1; by destruct state|].
  intros Ha Hb Hc Hd.
  destruct (Hok1 Ha Hb) as (Hw1 & Hb1 & _).
  destruct (Hok2 Hc Hd) as (Hw2 & Hb2 & _).
  by rewrite Hw2, Hb2, Hw1, Hb1.
Qed.

Lemma C9_arming_twice_idempotent_witness :
  let request := chars "GET /alarm?alarm=1 HTTP/1.1" in
  let o1 := tcp_server_recv env_ok accepted_state (main_state 0) (Some request) in
  let o2 := tcp_server_recv env_ok accepted_state (srv o1) (Some request) in
  alarm_active (srv o1) = true
  /\ alarm_active (srv o2) = true
  /\ (body_of <$> conn o1) = Some (control_page true)
  /\ (body_of <$> conn o2) = (body_of <$> conn o1).
Proof.
  intros request o1 o2.
  pose proof (C9_arming_twice_idempotent env_ok env_ok accepted_state
                accepted_state (main_state 0)
                (chars " HTTP/1.1") (chars " HTTP/1.1")) as H.
  cbv zeta in H. destruct H as (H1 & H2 & _ & H4).
  destruct (H4 eq_refl eq_refl eq_refl eq_refl) as (H5 & H6 & _).
  repeat split; assumption.
Defined.

(* ===================================================================== *)
(** ** The server state across callbacks and ticks *)
(* ===================================================================== *)

Lemma set_alarm_active_same (state : TCP_SERVER_T) :
  set_alarm_active (alarm_active state) state = state.
Proof. by destruct state. Qed.

(** A callback changes nothing of the server state but [alarm_active]. *)
Lemma deliver_srv (env : lwip_results) (ev : event) (c : TCP_CONNECT_STATE_T)
    (state : TCP_SERVER_T) :
  srv (deliver env ev c state)
  = set_alarm_active (alarm_active (srv (deliver env ev c state))) state.
Proof.
  assert (Hclose : forall wr e,
            srv (tcp_close_client_connection env state wr e) = state).
  { intros wr e. unfold tcp_close_client_connection. by destruct (decide _). }
  destruct ev as [[payload|]|len| |err]; cbn [deliver].
  - unfold tcp_server_recv. destruct (_ <? _)%nat;
      [|by rewrite set_alarm_active_same].
    unfold tcp_server_recv_request. destruct (strncmp_eq _ _ _);
      [|by rewrite set_alarm_active_same].
    destruct (split_request _ _) as [hdrs1 params].
    destruct (alarm_control_content _ _ _ _ _) as [[len result'] state'] eqn:E.
    rewrite respond_srv.
    unfold alarm_control_content in E. destruct (strncmp_eq _ _ _).
    + destruct (if alarm_active _ then _ else _) as [r l] in E.
      injection E as _ _ <-.
      destruct params as [ps|]; cbn [fmap option_fmap option_map];
        [|by rewrite set_alarm_active_same].
      destruct (sscanf_lit_d _ _); [done|by rewrite set_alarm_active_same].
    + injection E as _ _ <-. by rewrite set_alarm_active_same.
  - unfold tcp_server_recv. by rewrite Hclose, set_alarm_active_same.
  - unfold tcp_server_sent. destruct (_ <=? _);
      [rewrite Hclose|]; by rewrite set_alarm_active_same.
  - unfold tcp_server_poll. by rewrite Hclose, set_alarm_active_same.
  - unfold tcp_server_err. destruct (decide _);
      [|rewrite Hclose]; by rewrite set_alarm_active_same.
Qed.

(** C3, amended.  Every actuator tick establishes [beep_active -> alarm_active],
    and with the alarm disabled it forces the pulse flag and both outputs off;
    a callback changes [alarm_active] at most, so after a request disarms the
    alarm the pulse flag keeps its value until that next tick. *)
Theorem C3_invariant_restored_by_tick :
  (forall clk state hw, beep_implies_alarm (update_alarm clk state hw).1)
  /\ (forall clk state hw,
        alarm_active state = false ->
        let '(state', hw') := update_alarm clk state hw in
        beep_active state' = false /\ red_led hw' = false
        /\ buzzer_level hw' = 0)
  /\ (forall env ev c state,
        let o := deliver env ev c state in
        beep_active (srv o) = beep_active state
        /\ srv o = set_alarm_active (alarm_active (srv o)) state).
Proof.
  split; [|split].
  - intros clk state hw Hbeep. unfold update_alarm in *.
    destruct (alarm_active state) eqn:Ha; [|done].
    destruct (_ <=? _) in *; [destruct (negb _) in *|];
      cbn [fst snd set_next_toggle_time set_beep_end_time set_beep_active
           beep_active beep_end_time] in *;
      destruct (_ && _) in *; done.
  - intros clk state hw Ha. unfold update_alarm. by rewrite Ha.
  - intros env ev c state o. split; [|apply deliver_srv].
    subst o. by rewrite deliver_srv.
Qed.

Lemma C3_invariant_restored_by_tick_witness :
  let disarmed := mkServer true false (IP4_ADDR 192 168 4 1) false 100000 true 200000 in
  let sounding := mkBoard true true 31250 ("ALARME", "EVACUAR")%string in
  let '(state', hw') := update_alarm (mkClock 10000 10000 10000 10000)
                          disarmed sounding in
  beep_active state' = false /\ red_led hw' = false /\ buzzer_level hw' = 0.
Proof.
  destruct C3_invariant_restored_by_tick as (_ & Htick & _).
  exact (Htick (mkClock 10000 10000 10000 10000)
           (mkServer true false (IP4_ADDR 192 168 4 1) false 100000 true 200000)
           (mkBoard true true 31250 ("ALARME", "EVACUAR")%string) eq_refl).
Defined.

(** C3 as stated fails on a reachable state: after arming, one tick starts a
    pulse; the disarming request then leaves [beep_active] set and the buzzer
    level where it was, until the following tick. *)
Lemma C3_counterexample :
  let o1 := tcp_server_recv env_ok accepted_state (main_state 0)
              (Some (chars "GET /alarm?alarm=1 HTTP/1.1")) in
  let tick := update_alarm (mkClock 0 0 0 0) (srv o1) main_board in
  let o3 := tcp_server_recv env_ok accepted_state tick.1
              (Some (chars "GET /alarm?alarm=0 HTTP/1.1")) in
  let tick' := update_alarm (mkClock 10000 10000 10000 10000) (srv o3) tick.2 in
  (alarm_active tick.1 = true /\ beep_active tick.1 = true
   /\ buzzer_level tick.2 = 31250)
  /\ (alarm_active (srv o3) = false /\ beep_active (srv o3) = true)
  /\ ~ beep_implies_alarm (srv o3)
  /\ (beep_active tick'.1 = false /\ buzzer_level tick'.2 = 0).
Proof.
  vm_compute. repeat split. intros H. specialize (H eq_refl). discriminate H.
Qed.

(* ===================================================================== *)
(** ** Pulse timing *)
(* ===================================================================== *)

(** C4, on the code.  With the alarm armed from the state [main] sets up, the
    tick at time 0 starts a pulse whose deadline is 200 ms ([BEEP_DURATION_MS])
    while the next toggle is due at 100 ms ([BEEP_INTERVAL_MS]); the tick at
    100 ms toggles and ends the pulse with the deadline still ahead.  The
    duration is not shorter than the interval, and it is the toggle, not the
    deadline, that ends the pulse. *)
Theorem C4_toggle_ends_pulse_before_deadline :
  let armed := set_alarm_active true (main_state 0) in
  let tick := update_alarm (mkClock 0 0 0 0) armed main_board in
  let tick' := update_alarm (mkClock 100000 100000 100000 100000) tick.1 tick.2 in
  (BEEP_INTERVAL_MS < BEEP_DURATION_MS)
  /\ (beep_active tick.1 = true /\ buzzer_level tick.2 = PWM_WRAP / 2
      /\ beep_end_time tick.1 = BEEP_DURATION_MS * 1000
      /\ next_toggle_time tick.1 = BEEP_INTERVAL_MS * 1000)
  /\ (beep_active tick'.1 = false /\ buzzer_level tick'.2 = 0
      /\ red_led tick'.2 = false
      /\ 0 < absolute_time_diff_us 100000 (beep_end_time tick.1)).
Proof. vm_compute. repeat split; discriminate. Qed.

(* ===================================================================== *)
(** ** Acknowledgments and the end of a connection *)
(* ===================================================================== *)

Lemma to_int_small (x : Z) : INT_MIN <= x <= INT_MAX -> to_int x = x.
Proof.
  unfold to_int, INT_MIN, INT_MAX. intros H.
  rewrite Z.mod_small by lia. lia.
Qed.

Lemma close_conn (env : lwip_results) (state : TCP_SERVER_T)
    (wr : list (list ascii)) (e : err_t) :
  conn (tcp_close_client_connection env state wr e) = None.
Proof. unfold tcp_close_client_connection. by destruct (decide _). Qed.

(** What [tcp_server_recv] leaves of the counters when the connection stays
    open: a GET request that is answered restarts [sent_len] at zero, anything
    else leaves the counters alone. *)
Lemma recv_counters (env : lwip_results) (c c' : TCP_CONNECT_STATE_T)
    (state : TCP_SERVER_T) (p : option (list ascii)) :
  conn (tcp_server_recv env c state p) = Some c' ->
  (sent_len c' = 0 /\ 0 <= header_len c' <= 127 /\ 0 <= result_len c' <= 255
   /\ exists payload, p = Some payload /\ payload <> []
        /\ take (length (chars HTTP_GET)) (received c payload) = chars HTTP_GET)
  \/ (sent_len c' = sent_len c /\ header_len c' = header_len c
      /\ result_len c' = result_len c
      /\ forall payload, p = Some payload -> payload <> [] ->
           take (length (chars HTTP_GET)) (received c payload) <> chars HTTP_GET).
Proof.
  destruct p as [payload|]; [|unfold tcp_server_recv; by rewrite close_conn].
  destruct (decide (payload = [])) as [->|Hp].
  { intros [= <-]. right. repeat split; try done. by intros ? [= <-]. }
  rewrite tcp_server_recv_payload by done.
  destruct (decide (take (length (chars HTTP_GET)) (received c payload)
                    = chars HTTP_GET)) as [Hget|Hget].
  - rewrite recv_request_get by done. cbv zeta.
    intros Hc. left.
    assert (Hex : exists payload0, Some payload = Some payload0 /\ payload0 <> []
              /\ take (length (chars HTTP_GET)) (received c payload0)
                 = chars HTTP_GET) by eauto.
    destruct (decide _) in Hc.
    + rewrite respond_page in Hc by done.
      repeat (destruct (decide _) in Hc); rewrite ?close_conn in Hc; try done.
      injection Hc as <-. cbn [sent_len header_len result_len]. repeat split; done || lia.
    + rewrite respond_redirect in Hc by done. cbv zeta in Hc.
      pose proof (redirect_length (gw state)) as Hr.
      set (rl := length (HTTP_RESPONSE_REDIRECT (ipaddr_ntoa (gw state)))) in *.
      clearbody rl.
      destruct (decide _) in Hc; rewrite ?close_conn in Hc; try done.
      injection Hc as <-. cbn [sent_len header_len result_len].
      repeat split; done || lia.
  - unfold tcp_server_recv_request.
    destruct (strncmp_eq _ _ _) eqn:E; [by apply get_method_test in E|].
    intros [= <-]. right. cbn [sent_len header_len result_len].
    repeat split; try done. by intros ? [= <-] _.
Qed.

Lemma sent_counters (env : lwip_results) (c : TCP_CONNECT_STATE_T)
    (state : TCP_SERVER_T) (len : Z) :
  conn_inv c -> 0 <= len < 65536 ->
  let o := tcp_server_sent env c state len in
  (conn o = None <-> header_len c + result_len c <= sent_len c + len)
  /\ (forall c', conn o = Some c' ->
        sent_len c' = sent_len c + len /\ header_len c' = header_len c
        /\ result_len c' = result_len c).
Proof.
  intros (Hs & Hh & Hr) Hlen o. subst o. unfold tcp_server_sent.
  cbn [header_len result_len].
  rewrite !to_int_small by (unfold INT_MIN, INT_MAX; lia).
  destruct (Z.leb_spec (header_len c + result_len c) (sent_len c + len)).
  - rewrite close_conn. split; [done|]. by intros c' [=].
  - cbn [conn]. split; [split; [done|lia]|]. by intros c' [= <-].
Qed.

Lemma deliver_inv (env : lwip_results) (ev : event)
    (c c' : TCP_CONNECT_STATE_T) (state : TCP_SERVER_T) :
  conn_inv c -> event_ok (env, ev) ->
  conn (deliver env ev c state) = Some c' -> conn_inv c'.
Proof.
  intros Hinv Hev Hc. destruct ev as [p|len| |err]; cbn [deliver] in Hc.
  - destruct Hinv as (Hs & Hh & Hr). unfold conn_inv.
    destruct (recv_counters _ _ _ _ _ Hc) as [(E1 & ? & ? & _)|(E1 & E2 & E3 & _)];
      lia.
  - cbn in Hev. destruct (sent_counters env c state len Hinv Hev) as [Hiff Hopen].
    destruct (Hopen c' Hc) as (Hs' & Hh' & Hr').
    assert (sent_len c + len < header_len c + result_len c).
    { destruct (Z.le_gt_cases (header_len c + result_len c) (sent_len c + len))
        as [Hle|]; [|done].
      apply Hiff in Hle. congruence. }
    destruct Hinv as (Hs & Hh & Hr). unfold conn_inv. lia.
  - unfold tcp_server_poll in Hc. by rewrite close_conn in Hc.
  - unfold tcp_server_err in Hc. destruct (decide _);
      [by injection Hc as <-|by rewrite close_conn in Hc].
Qed.

Lemma accepted_inv : conn_inv accepted_state.
Proof. unfold conn_inv, accepted_state; cbn. lia. Qed.

Lemma run_inv (evs : list (lwip_results * event)) (c c' : TCP_CONNECT_STATE_T)
    (state state' : TCP_SERVER_T) :
  conn_inv c -> Forall event_ok evs ->
  run evs c state = (Some c', state') -> conn_inv c'.
Proof.
  revert c state; induction evs as [|[env ev] evs IH]; intros c state Hinv Hok Hrun.
  - by injection Hrun as <- _.
  - apply Forall_cons in Hok as [Hev Hok]. cbn [run] in Hrun.
    destruct (conn (deliver env ev c state)) as [c1|] eqn:E; [|done].
    eapply IH; [|done..]. by eapply deliver_inv.
Qed.

(** C7, amended.  On a live connection an acknowledgment adds its length to
    [sent_len], which therefore does not decrease, and the connection is
    closed at that event exactly when the new count reaches
    [header_len + result_len], gracefully when [tcp_close] succeeds.  A GET
    request that is answered restarts the count at zero.  The poll timeout,
    a null pbuf and any error but [ERR_ABRT] close the connection too. *)
Theorem C7_acknowledged_count (state0 : TCP_SERVER_T)
    (evs : list (lwip_results * event)) (c : TCP_CONNECT_STATE_T)
    (state : TCP_SERVER_T) (env : lwip_results) (len : Z) :
  Forall event_ok evs ->
  run evs accepted_state state0 = (Some c, state) ->
  0 <= len < 65536 ->
  let o := tcp_server_sent env c state len in
  (conn o = None <-> header_len c + result_len c <= sent_len c + len)
  /\ (forall c', conn o = Some c' ->
        sent_len c' = sent_len c + len /\ sent_len c <= sent_len c')
  /\ (conn o = None -> close_err env = ERR_OK ->
        ret o = ERR_OK /\ aborted o = false)
  /\ (forall env' payload c',
        payload <> [] ->
        take (length (chars HTTP_GET)) (received c payload) = chars HTTP_GET ->
        conn (tcp_server_recv env' c state (Some payload)) = Some c' ->
        sent_len c' = 0)
  /\ conn (tcp_server_poll env state) = None
  /\ conn (tcp_server_recv env c state None) = None
  /\ (forall err, err <> ERR_ABRT -> conn (tcp_server_err env c state err) = None).
Proof.
  intros Hok Hrun Hlen o.
  pose proof (run_inv evs _ _ _ _ accepted_inv Hok Hrun) as Hinv.
  destruct (sent_counters env c state len Hinv Hlen) as [Hiff Hopen].
  fold o in Hiff, Hopen.
  split; [done|]. split.
  { intros c' Hc. destruct (Hopen c' Hc) as (-> & _). split; [done|lia]. }
  split.
  { intros Hclosed Hclose. subst o. unfold tcp_server_sent in *.
    destruct (_ <=? _); [|done].
    unfold tcp_close_client_connection. by rewrite decide_True. }
  split.
  { intros env' payload c' Hp Hget Hc.
    destruct (recv_counters _ _ _ _ _ Hc) as [(-> & _)|(_ & _ & _ & Hno)];
      [done|]. by destruct (Hno payload eq_refl Hp). }
  split; [apply close_conn|]. split; [apply close_conn|].
  intros err Herr. unfold tcp_server_err. rewrite decide_False by done.
  apply close_conn.
Qed.

Lemma C7_acknowledged_count_witness :
  let get := (env_ok, EvRecv (Some (chars "GET /alarm HTTP/1.1"))) in
  exists c state c1 state1,
    (* a response of 94 + 205 bytes is pending, nothing acknowledged yet *)
    run [get] accepted_state (main_state 0) = (Some c, state)
    /\ sent_len c = 0 /\ header_len c + result_len c = 299
    (* 94 bytes acknowledged: the count grows and the connection stays *)
    /\ conn (tcp_server_sent env_ok c state 94) = Some c1
    /\ sent_len c1 = sent_len c + 94 /\ sent_len c <= sent_len c1
    /\ run [get; (env_ok, EvSent 94)] accepted_state (main_state 0)
       = (Some c1, state1)
    (* the remaining 205 bytes acknowledged: closed, gracefully *)
    /\ conn (tcp_server_sent env_ok c1 state1 205) = None
    /\ ret (tcp_server_sent env_ok c1 state1 205) = ERR_OK
    /\ aborted (tcp_server_sent env_ok c1 state1 205) = false
    (* 204 bytes would not have been enough *)
    /\ is_Some (conn (tcp_server_sent env_ok c1 state1 204))
    (* a second GET request restarts the count *)
    /\ (sent_len <$> conn (tcp_server_recv env_ok c1 state1
                             (Some (chars "GET /alarm HTTP/1.1")))) = Some 0.
Proof.
  intros get.
  assert (Hok1 : Forall event_ok [get]).
  { constructor; [by vm_compute|constructor]. }
  assert (Hok2 : Forall event_ok [get; (env_ok, EvSent 94)]).
  { constructor; [by vm_compute|]. constructor; [by vm_compute|constructor]. }
  destruct (run [get] accepted_state (main_state 0)) as [[c|] state] eqn:E1;
    [|by vm_compute in E1].
  destruct (run [get; (env_ok, EvSent 94)] accepted_state (main_state 0))
    as [[c1|] state1] eqn:E2; [|by vm_compute in E2].
  destruct (C7_acknowledged_count (main_state 0) [get] c state env_ok 94
              Hok1 E1 ltac:(lia)) as (_ & Hgrow & _).
  destruct (C7_acknowledged_count (main_state 0) [get; (env_ok, EvSent 94)]
              c1 state1 env_ok 205 Hok2 E2 ltac:(lia))
    as (Hiff2 & _ & Hgrace & Hrestart & _).
  destruct (C7_acknowledged_count (main_state 0) [get; (env_ok, EvSent 94)]
              c1 state1 env_ok 204 Hok2 E2 ltac:(lia)) as (Hiff3 & _).
  vm_compute in E1. injection E1 as Hc Hst.
  vm_compute in E2. injection E2 as Hc1 Hst1.
  assert (Hopen : conn (tcp_server_sent env_ok c state 94) = Some c1).
  { rewrite <- Hc, <- Hst, <- Hc1. by vm_compute. }
  assert (Hclosed : conn (tcp_server_sent env_ok c1 state1 205) = None).
  { apply Hiff2. rewrite <- Hc1. by vm_compute. }
  destruct (Hgrow _ Hopen) as (Hs1 & Hle1).
  destruct (Hgrace Hclosed eq_refl) as (Hret & Hab).
  exists c, state, c1, state1.
  split; [reflexivity|]. split; [by rewrite <- Hc|].
  split; [by rewrite <- Hc|].
  split; [exact Hopen|]. split; [exact Hs1|]. split; [exact Hle1|].
  split; [reflexivity|]. split; [exact Hclosed|]. split; [exact Hret|].
  split; [exact Hab|]. split.
  - destruct (conn (tcp_server_sent env_ok c1 state1 204)) eqn:E; [eauto|].
    pose proof (proj1 Hiff3 eq_refl) as H. rewrite <- Hc1 in H.
    exfalso. apply H. by vm_compute.
  - destruct (conn (tcp_server_recv env_ok c1 state1
                      (Some (chars "GET /alarm HTTP/1.1")))) as [c2|] eqn:E3.
    + cbn [fmap option_fmap option_map]. f_equal.
      apply (Hrestart env_ok (chars "GET /alarm HTTP/1.1") c2); [done| |done].
      rewrite <- Hc1. reflexivity.
    + rewrite <- Hc1, <- Hst1 in E3. by vm_compute in E3.
Defined.

(** C7 as stated fails: on a connection that is still open, with 94 of the
    299 bytes of a response acknowledged, a second GET request resets
    [sent_len] from 94 to 0. *)
Lemma C7_counterexample :
  let get := (env_ok, EvRecv (Some (chars "GET /alarm HTTP/1.1"))) in
  let before := run [get; (env_ok, EvSent 94)] accepted_state (main_state 0) in
  let after := run [get; (env_ok, EvSent 94); get] accepted_state (main_state 0) in
  (sent_len <$> before.1) = Some 94
  /\ (header_len <$> before.1) = Some 94
  /\ (result_len <$> before.1) = Some 205
  /\ (sent_len <$> after.1) = Some 0
  /\ ~ (94 <= 0).
Proof. repeat split; first [by vm_compute | lia]. Qed.

(* ===================================================================== *)
(** ** Scenarios *)
(* ===================================================================== *)

(** Arming and then disarming brings back the page of the idle system. *)
Example arm_then_disarm :
  let o1 := tcp_server_recv env_ok accepted_state (main_state 0)
              (Some (chars "GET /alarm?alarm=1 HTTP/1.1")) in
  let o2 := tcp_server_recv env_ok accepted_state (srv o1)
              (Some (chars "GET /alarm?alarm=0 HTTP/1.1")) in
  srv o2 = main_state 0
  /\ written o2 = [HTTP_RESPONSE_HEADERS 200 205; control_page false].
Proof. by vm_compute. Qed.

(** The alarm state outlives the connection that set it: a second client is
    redirected from [/], its connection ends once the 58 bytes of the redirect
    are acknowledged, and [/alarm] then shows the armed page. *)
Example two_clients :
  let o1 := tcp_server_recv env_ok accepted_state (main_state 0)
              (Some (chars "GET /alarm?alarm=1 HTTP/1.1")) in
  let o2 := tcp_server_recv env_ok accepted_state (srv o1)
              (Some (chars "GET / HTTP/1.1")) in
  let o3 := tcp_server_recv env_ok accepted_state (srv o2)
              (Some (chars "GET /alarm HTTP/1.1")) in
  written o1 = [HTTP_RESPONSE_HEADERS 200 205; control_page true]
  /\ written o2 = [HTTP_RESPONSE_REDIRECT (chars "192.168.4.1")]
  /\ (run [(env_ok, EvRecv (Some (chars "GET / HTTP/1.1"))); (env_ok, EvSent 58)]
        accepted_state (srv o1)).1 = None
  /\ written o3 = [HTTP_RESPONSE_HEADERS 200 205; control_page true].
Proof. by vm_compute. Qed.

(* ===================================================================== *)
(** ** The display *)
(* ===================================================================== *)

Lemma to_unsigned_small (x : Z) : 0 <= x < 2 ^ 32 -> to_unsigned x = x.
Proof. intros H. unfold to_unsigned. by rewrite Z.mod_small. Qed.




(** X2. A line wider than the display is not given a negative column: the
    unsigned subtraction wraps, and the column is at least 2^30. *)
Theorem X2_wide_line_column_wraps (ssd1306_width : Z) (line : list ascii) :
  0 <= ssd1306_width ->
  ssd1306_width < strlen line * 6 < 2 ^ 31 ->
  centred_x ssd1306_width line
  = (2 ^ 32 - (strlen line * 6 - ssd1306_width)) / 2
  /\ 2 ^ 30 <= centred_x ssd1306_width line.
Proof.
  intros Hw Hwide. unfold centred_x.
  assert (0 <= strlen line) by (unfold strlen; lia).
  rewrite (to_unsigned_small (strlen line)) by lia.
  rewrite (to_unsigned_small (strlen line * 6)) by lia.
  rewrite (to_unsigned_small ssd1306_width) by lia.
  set (d := strlen line * 6 - ssd1306_width).
  assert (E : to_unsigned (ssd1306_width - strlen line * 6) = 2 ^ 32 - d).
  { unfold to_unsigned. subst d.
    replace (ssd1306_width - strlen line * 6)
      with (2 ^ 32 - (strlen line * 6 - ssd1306_width) + (-1) * 2 ^ 32) by lia.
    rewrite Z.mod_add by lia. apply Z.mod_small. lia. }
  rewrite E.
  assert (2 ^ 30 <= (2 ^ 32 - d) / 2 < 2 ^ 31).
  { subst d. split.
    - apply Z.div_le_lower_bound; lia.
    - apply Z.div_lt_upper_bound; lia. }
  rewrite to_int_small by (unfold INT_MIN, INT_MAX; lia). lia.
Qed.

Lemma X2_wide_line_column_wraps_witness :
  centred_x 128 (chars "Sistema de alarme desligado")
  = (2 ^ 32 - (strlen (chars "Sistema de alarme desligado") * 6 - 128)) / 2
  /\ 2 ^ 30 <= centred_x 128 (chars "Sistema de alarme desligado").
Proof.
  apply (X2_wide_line_column_wraps 128 (chars "Sistema de alarme desligado")).
  - lia.
  - vm_compute. split; reflexivity.
Defined.

(* ===================================================================== *)
(** ** Bounds of the receive path *)
(* ===================================================================== *)

(** X3. Only the first 127 bytes of a payload are looked at. *)
Theorem X3_payload_truncated (env : lwip_results) (c : TCP_CONNECT_STATE_T)
    (state : TCP_SERVER_T) (payload : list ascii) :
  tcp_server_recv env c state (Some payload)
  = tcp_server_recv env c state (Some (take (HEADERS_SIZE - 1) payload)).
Proof.
  destruct (decide (length payload <= HEADERS_SIZE - 1)%nat) as [Hle|Hgt].
  { by rewrite take_ge. }
  assert (Hlen : length (take (HEADERS_SIZE - 1) payload) = (HEADERS_SIZE - 1)%nat)
    by (rewrite length_take; lia).
  unfold tcp_server_recv. rewrite Hlen.
  replace (0 <? length payload)%nat with true
    by (symmetry; apply Nat.ltb_lt; unfold HEADERS_SIZE in *; lia).
  change (0 <? HEADERS_SIZE - 1)%nat with true. cbv iota.
  f_equal. unfold received, pbuf_copy_partial. rewrite Hlen.
  replace (HEADERS_SIZE - 1 <? length payload)%nat with true
    by (symmetry; apply Nat.ltb_lt; lia).
  rewrite Nat.ltb_irrefl. by rewrite take_take, Nat.min_id.
Qed.

Lemma snprintf_buffer (buf : list ascii) (n : nat) (text : list ascii) :
  (0 < n)%nat -> length buf = n -> buf !! (n - 1)%nat = Some NUL ->
  length (snprintf buf n text).1 = n
  /\ (snprintf buf n text).1 !! (n - 1)%nat = Some NUL.
Proof.
  intros Hn Hlen Hlast. unfold snprintf. destruct n as [|m]; [lia|].
  cbn [fst]. replace (S m - 1)%nat with m in * by lia.
  set (out := take m text).
  assert (Hout : (length out <= m)%nat) by (subst out; rewrite length_take; lia).
  split.
  - rewrite length_app. cbn [length]. rewrite length_drop. lia.
  - rewrite lookup_app_r by lia.
    destruct (decide (length out = m)) as [->|Hne].
    + by rewrite Nat.sub_diag.
    + replace (m - length out)%nat with (S (m - length out - 1)) by lia.
      rewrite lookup_cons_ne_0 by lia. cbn [pred]. rewrite lookup_drop.
      by replace (S (length out) + (m - length out - 1))%nat with m by lia.
Qed.

Lemma received_buffer (c : TCP_CONNECT_STATE_T) (payload : list ascii) :
  length (headers c) = HEADERS_SIZE ->
  headers c !! (HEADERS_SIZE - 1)%nat = Some NUL ->
  length (received c payload) = HEADERS_SIZE
  /\ received c payload !! (HEADERS_SIZE - 1)%nat = Some NUL.
Proof.
  intros Hlen Hlast. unfold received, pbuf_copy_partial.
  set (n := if (_ <? _)%nat then _ else _).
  assert (Hn : (n <= HEADERS_SIZE - 1 /\ n <= length payload)%nat).
  { subst n. destruct (Nat.ltb_spec (HEADERS_SIZE - 1) (length payload)); lia. }
  assert (Ht : length (take n payload) = n) by (rewrite length_take; lia).
  split.
  - rewrite length_app, length_drop, Ht. unfold HEADERS_SIZE in *. lia.
  - rewrite lookup_app_r by lia. rewrite Ht, lookup_drop.
    by replace (n + (HEADERS_SIZE - 1 - n))%nat with (HEADERS_SIZE - 1)%nat by lia.
Qed.

Lemma split_request_buffer (hdrs : list ascii) (request : nat) :
  length hdrs = HEADERS_SIZE ->
  hdrs !! (HEADERS_SIZE - 1)%nat = Some NUL ->
  length (split_request hdrs request).1 = HEADERS_SIZE
  /\ (split_request hdrs request).1 !! (HEADERS_SIZE - 1)%nat = Some NUL.
Proof.
  intros Hlen Hlast. split.
  - unfold split_request.
    destruct (strchr _ "?"); [|done]. destruct (negb _); [|done].
    destruct (strchr _ " "); cbn [fst]; by rewrite ?length_insert.
  - destruct (split_request_lookup hdrs request (HEADERS_SIZE - 1)) as [-> | ->];
      done.
Qed.

(** X4. Every callback leaves both buffers of a connection at their declared
    size and ending in a terminator, so the string functions stay inside
    them. *)
Theorem X4_buffers_stay_terminated (env : lwip_results) (ev : event)
    (c c' : TCP_CONNECT_STATE_T) (state : TCP_SERVER_T) :
  buffers_ok c ->
  conn (deliver env ev c state) = Some c' ->
  buffers_ok c'.
Proof.
  intros (Hh & Hhl & Hr & Hrl) Hc.
  destruct ev as [[payload|]|len| |err]; cbn [deliver] in Hc.
  - destruct (decide (payload = [])) as [->|Hp]; [by injection Hc as <-|].
    rewrite tcp_server_recv_payload in Hc by done.
    destruct (received_buffer c payload Hh Hhl) as [Hrcv Hrcvl].
    destruct (decide (take (length (chars HTTP_GET)) (received c payload)
                      = chars HTTP_GET)) as [Hget|Hget].
    + rewrite recv_request_get in Hc by done. cbv zeta in Hc.
      destruct (split_request_buffer (received c payload)
                  (S (length (chars HTTP_GET))) Hrcv Hrcvl) as [Hs Hsl].
      destruct (decide _) in Hc.
      * rewrite respond_page in Hc by done. cbv zeta in Hc.
        cbn [headers result] in Hc.
        repeat (destruct (decide _) in Hc); rewrite ?close_conn in Hc; try done.
        cbn [conn] in Hc.
        match type of Hc with
        | Some (mkConn _ (snprintf ?b1 ?n1 ?t1).1 (snprintf ?b2 ?n2 ?t2).1 _ _) = _ =>
            pose proof (snprintf_buffer b1 n1 t1 ltac:(unfold HEADERS_SIZE; lia)
                          Hs Hsl) as [H1 H1l];
            pose proof (snprintf_buffer b2 n2 t2 ltac:(unfold RESULT_SIZE; lia)
                          Hr Hrl) as [H2 H2l];
            set (h1 := (snprintf b1 n1 t1).1) in *;
            set (r1 := (snprintf b2 n2 t2).1) in *
        end.
        clearbody h1 r1. by injection Hc as <-.
      * rewrite respond_redirect in Hc by done. cbv zeta in Hc.
        cbn [headers result] in Hc.
        destruct (decide _) in Hc; rewrite ?close_conn in Hc; try done.
        cbn [conn] in Hc.
        match type of Hc with
        | Some (mkConn _ (snprintf ?b1 ?n1 ?t1).1 _ _ _) = _ =>
            pose proof (snprintf_buffer b1 n1 t1 ltac:(unfold HEADERS_SIZE; lia)
                          Hs Hsl) as [H1 H1l];
            set (h1 := (snprintf b1 n1 t1).1) in *
        end.
        clearbody h1. by injection Hc as <-.
    + unfold tcp_server_recv_request in Hc.
      destruct (strncmp_eq _ _ _) eqn:E; [by apply get_method_test in E|].
      by injection Hc as <-.
  - unfold tcp_server_recv in Hc. by rewrite close_conn in Hc.
  - unfold tcp_server_sent in Hc. destruct (_ <=? _);
      [by rewrite close_conn in Hc|by injection Hc as <-].
  - unfold tcp_server_poll in Hc. by rewrite close_conn in Hc.
  - unfold tcp_server_err in Hc. destruct (decide _);
      [by injection Hc as <-|by rewrite close_conn in Hc].
Qed.

Lemma X4_buffers_stay_terminated_witness :
  exists c',
    conn (deliver env_ok (EvRecv (Some (chars "GET /alarm?alarm=1 HTTP/1.1")))
            accepted_state (main_state 0)) = Some c'
    /\ buffers_ok c'.
Proof.
  destruct (conn _) as [c'|] eqn:E; [|by vm_compute in E].
  exists c'. split; [done|].
  apply (X4_buffers_stay_terminated env_ok
           (EvRecv (Some (chars "GET /alarm?alarm=1 HTTP/1.1")))
           accepted_state c' (main_state 0)); [|exact E].
  unfold buffers_ok, accepted_state. cbn [headers result].
  rewrite !length_replicate. split_and!; [done|by vm_compute|done|by vm_compute].
Defined.

Lemma strchr_lookup (s : list ascii) (c : ascii) (k : nat) :
  c <> NUL -> strchr s c = Some k -> s !! k = Some c.
Proof.
  intros Hc. revert k; induction s as [|x r IH]; intros k; cbn [strchr].
  - destruct (Ascii.eqb_spec c NUL); done.
  - destruct (Ascii.eqb_spec x c) as [->|Hne]; [by intros [= <-]|].
    destruct (Ascii.eqb x NUL); [done|].
    destruct (strchr r c) as [j|]; [|done]. intros [= <-]. by apply IH.
Qed.

(** X5. In a terminated 128-byte buffer, [params], when it is not null,
    points inside the buffer, just after the [?] that the split has replaced
    by a terminator. *)
Theorem X5_params_inside_buffer (hdrs hdrs1 : list ascii) (request params : nat) :
  length hdrs = HEADERS_SIZE ->
  hdrs !! (HEADERS_SIZE - 1)%nat = Some NUL ->
  split_request hdrs request = (hdrs1, Some params) ->
  (request < params <= HEADERS_SIZE - 1)%nat
  /\ hdrs !! (params - 1)%nat = Some "?"%char
  /\ hdrs1 !! (params - 1)%nat = Some NUL.
Proof.
  intros Hlen Hlast Hsplit. unfold split_request in Hsplit.
  destruct (strchr (drop request hdrs) "?") as [off|] eqn:Hq; [|done].
  apply strchr_lookup in Hq; [|done]. rewrite lookup_drop in Hq.
  destruct (negb _); [|done].
  assert (Hin : (request + off < HEADERS_SIZE - 1)%nat).
  { pose proof (lookup_lt_Some _ _ _ Hq) as Hlt.
    destruct (decide (request + off = HEADERS_SIZE - 1)%nat) as [E|]; [|lia].
    rewrite E, Hlast in Hq. vm_compute in Hq. discriminate Hq. }
  assert (Hnul : forall l : list ascii, (request + off < length l)%nat ->
            forall so, match so with
                       | Some j => <[(request + j)%nat:=NUL]>
                                     (<[(request + off)%nat:=NUL]> l)
                       | None => <[(request + off)%nat:=NUL]> l
                       end !! (request + off)%nat = Some NUL).
  { intros l Hl [j|].
    - destruct (insert_nul_lookup (<[(request + off)%nat:=NUL]> l)
                  (request + j) (request + off)) as [-> | ->]; [|done].
      by apply list_lookup_insert_eq.
    - by apply list_lookup_insert_eq. }
  injection Hsplit as <- <-.
  replace (S (request + off) - 1)%nat with (request + off)%nat by lia.
  split; [lia|]. split; [done|]. apply Hnul. lia.
Qed.

Lemma X5_params_inside_buffer_witness :
  let hdrs := received accepted_state (chars "GET /alarm?alarm=1 HTTP/1.1") in
  (4 < 11 <= HEADERS_SIZE - 1)%nat
  /\ hdrs !! (11 - 1)%nat = Some "?"%char
  /\ (split_request hdrs 4).1 !! (11 - 1)%nat = Some NUL.
Proof.
  intros hdrs.
  apply (X5_params_inside_buffer hdrs (split_request hdrs 4).1 4 11);
    by vm_compute.
Defined.

(* ===================================================================== *)
(** ** The request line *)
(* ===================================================================== *)

Lemma cstring_app_nul (l r : list ascii) :
  no_nul l = true -> cstring (l ++ NUL :: r) = l.
Proof.
  induction l as [|x l IH]; intros Hl; [done|].
  cbn [no_nul forallb] in Hl. apply andb_true_iff in Hl as [Hx Hl].
  apply negb_true_iff in Hx. cbn [app cstring]. rewrite Hx. f_equal. by apply IH.
Qed.

Lemma token_chars_no_nul (l : list ascii) : token_chars l = true -> no_nul l = true.
Proof.
  unfold token_chars, no_nul. rewrite !forallb_forall.
  intros H x Hx. specialize (H x Hx). by apply andb_true_iff in H as [_ H].
Qed.

Lemma token_chars_skip_space (l : list ascii) :
  token_chars l = true ->
  forallb (fun x => negb (Ascii.eqb x " ") && negb (Ascii.eqb x NUL)) l = true.
Proof. done. Qed.

Lemma path_chars_skip_query (l : list ascii) :
  forallb is_path_char l = true ->
  forallb (fun x => negb (Ascii.eqb x "?") && negb (Ascii.eqb x NUL)) l = true
  /\ token_chars l = true.
Proof.
  unfold token_chars. rewrite !forallb_forall. intros H. split; intros x Hx;
    specialize (H x Hx); unfold is_path_char in H;
    apply andb_true_iff in H as [H Hz]; apply andb_true_iff in H as [Hs Hq];
    by rewrite ?Hs, ?Hq, ?Hz.
Qed.

(** The split of a request line [GET <path>?<query><sep>...], where the
    separator is a space or the terminator. *)
Lemma split_request_line (path query rest : list ascii) (sep : ascii) :
  forallb is_path_char path = true ->
  token_chars query = true ->
  sep = " "%char \/ sep = NUL ->
  split_request (chars "GET " ++ path ++ "?"%char :: query ++ sep :: rest)
    (S (length (chars HTTP_GET)))
  = (chars "GET " ++ path ++ NUL :: query ++ NUL :: rest,
     Some (S (S (length (chars HTTP_GET)) + length path))).
Proof.
  intros Hpath Hquery Hsep.
  destruct (path_chars_skip_query path Hpath) as [Hpq Hpt].
  unfold split_request.
  change (drop (S (length (chars HTTP_GET))) (chars "GET " ++ ?l)) with l.
  rewrite (strchr_app_skip path _ "?" Hpq). cbn [strchr].
  change (Ascii.eqb "?" "?") with true. cbn [fmap option_fmap option_map].
  rewrite Nat.add_0_r.
  assert (Hdrop : forall l : list ascii,
            drop (S (length (chars HTTP_GET)) + length path)
                 (chars "GET " ++ path ++ l) = l).
  { intros l. rewrite <- drop_drop.
    change (drop (S (length (chars HTTP_GET))) (chars "GET " ++ ?k)) with k.
    by rewrite drop_app_length. }
  rewrite Hdrop. change (peek ("?"%char :: _)) with "?"%char.
  change (negb (Ascii.eqb "?" NUL)) with true. cbv iota.
  assert (Hins : forall (l : list ascii) (x : ascii),
            <[(S (length (chars HTTP_GET)) + length path)%nat := NUL]>
              (chars "GET " ++ path ++ x :: l)
            = chars "GET " ++ path ++ NUL :: l).
  { intros l x.
    change (S (length (chars HTTP_GET))) with (length (chars "GET ")).
    rewrite insert_app_r, <- (Nat.add_0_r (length path)), insert_app_r. done. }
  rewrite Hins.
  replace (path ++ "?"%char :: query ++ sep :: rest)
    with ((path ++ "?"%char :: query) ++ sep :: rest)
    by (by rewrite <- app_assoc).
  rewrite strchr_app_skip.
  2:{ rewrite forallb_app. cbn [forallb].
      rewrite (token_chars_skip_space path Hpt).
      change (negb (Ascii.eqb "?" " ") && negb (Ascii.eqb "?" NUL)) with true.
      by rewrite (token_chars_skip_space query Hquery). }
  destruct Hsep as [-> | ->]; cbn [strchr].
  - change (Ascii.eqb " " " ") with true. cbn [fmap option_fmap option_map].
    f_equal. rewrite Nat.add_0_r.
    change (S (length (chars HTTP_GET))) with (length (chars "GET ")).
    rewrite insert_app_r. f_equal.
    rewrite length_app. cbn [length].
    rewrite insert_app_r. f_equal.
    change (<[S (length query):=NUL]> (NUL :: query ++ " "%char :: rest))
      with (NUL :: <[length query:=NUL]> (query ++ " "%char :: rest)).
    f_equal. rewrite <- (Nat.add_0_r (length query)) at 1.
    by rewrite insert_app_r.
  - change (Ascii.eqb NUL " ") with false. change (Ascii.eqb NUL NUL) with true.
    done.
Qed.

(** X6. The split of a request line [GET <path>?<query>] followed by a space
    or by the end of the string hands on exactly the path and the query:
    [request] is left pointing at the string [path] and [params] at the
    string [query]. *)
Theorem X6_request_line_round_trip (path query rest : list ascii) (sep : ascii) :
  forallb is_path_char path = true ->
  token_chars query = true ->
  sep = " "%char \/ sep = NUL ->
  let request := S (length (chars HTTP_GET)) in
  let '(hdrs1, params) :=
    split_request (chars "GET " ++ path ++ "?"%char :: query ++ sep :: rest)
      request in
  cstring (drop request hdrs1) = path
  /\ exists p, params = Some p /\ cstring (drop p hdrs1) = query.
Proof.
  intros Hpath Hquery Hsep request. subst request.
  rewrite split_request_line by done.
  destruct (path_chars_skip_query path Hpath) as [_ Hpt].
  split.
  - change (drop (S (length (chars HTTP_GET))) (chars "GET " ++ ?l)) with l.
    by apply cstring_app_nul, token_chars_no_nul.
  - eexists. split; [done|].
    replace (S (S (length (chars HTTP_GET)) + length path))
      with (S (length (chars HTTP_GET)) + (length path + 1))%nat by lia.
    rewrite <- drop_drop.
    change (drop (S (length (chars HTTP_GET))) (chars "GET " ++ ?l)) with l.
    rewrite <- drop_drop, drop_app_length. cbn [drop].
    by apply cstring_app_nul, token_chars_no_nul.
Qed.

Lemma X6_request_line_round_trip_witness :
  let request := S (length (chars HTTP_GET)) in
  let '(hdrs1, params) :=
    split_request
      (chars "GET " ++ chars "/alarm" ++ "?"%char :: chars "alarm=1"
       ++ " "%char :: chars "HTTP/1.1")
      request in
  cstring (drop request hdrs1) = chars "/alarm"
  /\ exists p, params = Some p /\ cstring (drop p hdrs1) = chars "alarm=1".
Proof.
  exact (X6_request_line_round_trip (chars "/alarm") (chars "alarm=1")
           (chars "HTTP/1.1") " "%char eq_refl eq_refl (or_introl eq_refl)).
Defined.








(** X8. The query is taken at the first [?] of the buffer, wherever it is: a
    request for [/alarm] without a query whose later bytes (a header line,
    say) hold [?alarm=1] arms the alarm. *)
Theorem X8_query_found_beyond_request_line (env : lwip_results)
    (c : TCP_CONNECT_STATE_T) (state : TCP_SERVER_T) (mid rest : list ascii) :
  forallb (fun x => negb (Ascii.eqb x "?") && negb (Ascii.eqb x NUL)) mid = true ->
  (length mid <= 100)%nat ->
  srv (tcp_server_recv env c state
         (Some (chars "GET /alarm " ++ mid ++ chars "?alarm=1" ++ rest)))
  = set_alarm_active true state.
Proof.
  intros Hmid Hlen.
  replace (chars "GET /alarm " ++ mid ++ chars "?alarm=1" ++ rest)
    with ((chars "GET /alarm " ++ mid ++ chars "?alarm=1") ++ rest)
    by (by rewrite <- !app_assoc).
  destruct (received_prefix c (chars "GET /alarm " ++ mid ++ chars "?alarm=1") rest)
    as [tail Hrecv].
  { rewrite !length_app. change (length (chars "GET /alarm ")) with 11%nat.
    change (length (chars "?alarm=1")) with 8%nat. unfold HEADERS_SIZE. lia. }
  rewrite tcp_server_recv_payload by done. rewrite Hrecv.
  replace ((chars "GET /alarm " ++ mid ++ chars "?alarm=1") ++ tail)
    with (chars "GET /alarm " ++ mid ++ "?"%char :: chars "alarm=1" ++ tail)
    by (rewrite <- !app_assoc; reflexivity).
  set (hdrs := chars "GET /alarm " ++ mid ++ "?"%char :: chars "alarm=1" ++ tail).
  assert (Hsplit : split_request hdrs (S (length (chars HTTP_GET)))
                   = (<[10%nat:=NUL]> (<[(11 + length mid)%nat:=NUL]> hdrs),
                      Some (12 + length mid)%nat)).
  { unfold split_request.
    change (drop (S (length (chars HTTP_GET))) hdrs)
      with ((chars "/alarm " ++ mid) ++ "?"%char :: chars "alarm=1" ++ tail).
    rewrite strchr_app_skip.
    2:{ rewrite forallb_app. by rewrite Hmid. }
    cbn [strchr]. change (Ascii.eqb "?" "?") with true.
    cbn [fmap option_fmap option_map]. rewrite length_app.
    change (length (chars "/alarm ")) with 7%nat.
    replace (S (length (chars HTTP_GET)) + (7 + length mid + 0))%nat
      with (11 + length mid)%nat by (cbn; lia).
    assert (Hpeek : peek (drop (11 + length mid) hdrs) = "?"%char).
    { subst hdrs. rewrite <- drop_drop.
      change (drop 11 (chars "GET /alarm " ++ ?l)) with l.
      by rewrite drop_app_length. }
    rewrite Hpeek. change (negb (Ascii.eqb "?" NUL)) with true. cbv iota.
    change (strchr ((chars "/alarm " ++ mid) ++ _) " ") with (Some 6%nat).
    done. }
  rewrite recv_request_get by reflexivity. cbv zeta. rewrite Hsplit.
  cbn [fst snd fmap option_fmap option_map].
  assert (Hreq : take (length (chars ALARM_CONTROL))
                   (drop (S (length (chars HTTP_GET)))
                      (<[10%nat:=NUL]> (<[(11 + length mid)%nat:=NUL]> hdrs)))
                 = chars ALARM_CONTROL) by reflexivity.
  rewrite decide_True by exact Hreq.
  assert (Hpar : drop (12 + length mid)
                   (<[10%nat:=NUL]> (<[(11 + length mid)%nat:=NUL]> hdrs))
                 = chars "alarm=1" ++ tail).
  { rewrite !drop_insert_lt by lia. subst hdrs.
    replace (12 + length mid)%nat with (11 + (length mid + 1))%nat by lia.
    rewrite <- drop_drop.
    change (drop 11 (chars "GET /alarm " ++ ?l)) with l.
    by rewrite <- drop_drop, drop_app_length. }
  rewrite Hpar, toggled_alarm_1. apply respond_srv.
Qed.

Lemma X8_query_found_beyond_request_line_witness :
  srv (tcp_server_recv env_ok accepted_state (main_state 0)
         (Some (chars "GET /alarm " ++ chars "HTTP/1.1 Referer: http://h/alarm"
                ++ chars "?alarm=1" ++ chars " ")))
  = set_alarm_active true (main_state 0).
Proof.
  apply (X8_query_found_beyond_request_line env_ok accepted_state (main_state 0)
           (chars "HTTP/1.1 Referer: http://h/alarm") (chars " ")).
  - reflexivity.
  - vm_compute. lia.
Defined.

(* ===================================================================== *)
(** ** Responses and their acknowledgment *)
(* ===================================================================== *)

(** X9. When [tcp_server_recv] answers a GET request and leaves the
    connection open, the bytes it handed to [tcp_write] are exactly as many
    as [tcp_server_sent] will wait for: [header_len + result_len]. *)
Theorem X9_written_is_awaited (env : lwip_results) (c c' : TCP_CONNECT_STATE_T)
    (state : TCP_SERVER_T) (payload : list ascii) :
  payload <> [] ->
  take (length (chars HTTP_GET)) (received c payload) = chars HTTP_GET ->
  conn (tcp_server_recv env c state (Some payload)) = Some c' ->
  Z.of_nat (length (concat (written (tcp_server_recv env c state (Some payload)))))
  = header_len c' + result_len c'.
Proof.
  intros Hp Hget. rewrite tcp_server_recv_payload, recv_request_get by done.
  cbv zeta. destruct (decide _).
  - rewrite respond_page by done. cbv zeta. cbn [result].
    pose proof (snprintf_fits (result c) RESULT_SIZE
                  (control_page (alarm_active
                     (toggled ((fun i => drop i
                         (split_request (received c payload)
                            (S (length (chars HTTP_GET)))).1)
                       <$> (split_request (received c payload)
                              (S (length (chars HTTP_GET)))).2) state)))
                  ltac:(rewrite control_page_length; unfold RESULT_SIZE; lia))
      as [_ Hfit].
    rewrite control_page_length in Hfit.
    repeat (destruct (decide _)); rewrite ?close_conn; try done.
    cbn [conn written]. intros [= <-]. cbn [header_len result_len concat].
    rewrite Hfit, app_nil_r, length_app, control_page_length, page_headers_length.
    done.
  - rewrite respond_redirect by done. cbv zeta.
    set (redirect := HTTP_RESPONSE_REDIRECT _). clearbody redirect.
    destruct (decide _); rewrite ?close_conn; try done.
    cbn [conn written]. intros [= <-]. cbn [header_len result_len concat].
    rewrite app_nil_r. lia.
Qed.

Lemma X9_written_is_awaited_witness :
  exists c',
    conn (tcp_server_recv env_ok accepted_state (main_state 0)
            (Some (chars "GET / HTTP/1.1"))) = Some c'
    /\ Z.of_nat (length (concat (written
          (tcp_server_recv env_ok accepted_state (main_state 0)
             (Some (chars "GET / HTTP/1.1"))))))
       = header_len c' + result_len c'.
Proof.
  destruct (conn _) as [c'|] eqn:E; [|by vm_compute in E].
  exists c'. split; [done|].
  apply (X9_written_is_awaited env_ok accepted_state c' (main_state 0)
           (chars "GET / HTTP/1.1")); [discriminate|reflexivity|exact E].
Defined.

(** X10. With a response pending, a series of acknowledgments ends the
    connection exactly when their lengths add up to what is still awaited. *)
Theorem X10_acknowledgments_add_up (acks : list (lwip_results * Z))
    (c : TCP_CONNECT_STATE_T) (state : TCP_SERVER_T) :
  conn_inv c ->
  sent_len c < header_len c + result_len c ->
  Forall (fun a => 0 <= a.2 < 65536) acks ->
  (run (prod_map id EvSent <$> acks) c state).1 = None
  <-> header_len c + result_len c <= sent_len c + foldr Z.add 0 (snd <$> acks).
Proof.
  intros Hinv Hpend Hacks. revert c Hinv Hpend.
  induction Hacks as [|[env len] acks Hlen Htail IH]; intros c Hinv Hpend.
  - cbn. split; [done|lia].
  - cbn [fmap list_fmap prod_map fst snd id run deliver foldr] in *.
    destruct (sent_counters env c state len Hinv Hlen) as [Hiff Hopen].
    assert (Hnn : 0 <= foldr Z.add 0 (snd <$> acks)).
    { clear -Htail. induction Htail as [|[? ?] ? ? ? IHa]; cbn in *; lia. }
    destruct (conn (tcp_server_sent env c state len)) as [c1|] eqn:E.
    + destruct (Hopen c1 eq_refl) as (Hs & Hh & Hr).
      assert (Hlt : sent_len c + len < header_len c + result_len c).
      { destruct (Z.le_gt_cases (header_len c + result_len c) (sent_len c + len))
          as [Hle|]; [|done]. by apply Hiff in Hle. }
      assert (Hsrv : srv (tcp_server_sent env c state len) = state).
      { unfold tcp_server_sent in *. destruct (_ <=? _); [|done].
        by rewrite close_conn in E. }
      rewrite Hsrv, IH.
      * rewrite Hs, Hh, Hr. lia.
      * destruct Hinv as (? & ? & ?). unfold conn_inv. lia.
      * lia.
    + cbn [fst]. split; [|done]. intros _.
      pose proof (proj1 Hiff eq_refl). lia.
Qed.

Lemma X10_acknowledgments_add_up_witness :
  (run (prod_map id EvSent <$> [(env_ok, 94); (env_ok, 200); (env_ok, 5)])
       (mkConn 0 (replicate HEADERS_SIZE NUL) (replicate RESULT_SIZE NUL) 94 205)
       (main_state 0)).1 = None
  <-> 94 + 205 <= 0 + foldr Z.add 0 (snd <$> [(env_ok, 94); (env_ok, 200); (env_ok, 5)]).
Proof.
  apply (X10_acknowledgments_add_up [(env_ok, 94); (env_ok, 200); (env_ok, 5)]
           (mkConn 0 (replicate HEADERS_SIZE NUL) (replicate RESULT_SIZE NUL) 94 205)
           (main_state 0)).
  - unfold conn_inv. cbn. lia.
  - cbn. lia.
  - repeat constructor; cbn; lia.
Defined.

(* ===================================================================== *)
(** ** What changes the alarm, and how callbacks end *)
(* ===================================================================== *)

(** X11. [alarm_active] is changed by one kind of event only: a non-empty
    received payload after which the header buffer begins with the three
    bytes [GET], holds [/alarm] from offset 4 and has, after a [?], a query
    that scans as [alarm=<n>]; the new value is then [n <> 0].  The method is
    tested over three bytes, so a first token such as [GETT] counts as well.
    No other payload, no null or empty pbuf and no acknowledgment, poll or
    error event changes it. *)
Theorem X11_alarm_changed_by_control_requests_only (env : lwip_results)
    (ev : event) (c : TCP_CONNECT_STATE_T) (state : TCP_SERVER_T) :
  alarm_active (srv (deliver env ev c state)) <> alarm_active state ->
  exists payload,
    ev = EvRecv (Some payload)
    /\ payload <> []
    /\ take (length (chars HTTP_GET)) (received c payload) = chars HTTP_GET
    /\ chars ALARM_CONTROL `prefix_of` request_path (received c payload)
    /\ exists (mark : nat) (alarm_param : Z),
         (split_request (received c payload) (S (length (chars HTTP_GET)))).2
           = Some mark
         /\ sscanf_lit_d
              (drop mark (split_request (received c payload)
                            (S (length (chars HTTP_GET)))).1)
              ALARM_PARAM = Some alarm_param
         /\ alarm_active (srv (deliver env ev c state))
            = negb (alarm_param =? 0).
Proof.
  intros Hchg.
  assert (Hclose : forall wr e,
            srv (tcp_close_client_connection env state wr e) = state).
  { intros wr e. unfold tcp_close_client_connection. by destruct (decide _). }
  destruct ev as [[payload|]|len| |err]; cbn [deliver] in Hchg |- *.
  - exists payload. split; [done|].
    destruct (decide (payload = [])) as [->|Hp]; [done|]. split; [done|].
    rewrite tcp_server_recv_payload in Hchg |- * by done.
    destruct (decide (take (length (chars HTTP_GET)) (received c payload)
                      = chars HTTP_GET)) as [Hget|Hget].
    + split; [done|]. rewrite recv_request_get in Hchg |- * by done.
      cbv zeta in Hchg |- *.
      destruct (decide _) as [E|E]; [|by rewrite respond_srv in Hchg].
      split.
      { apply token_control_prefix.
        pose proof (split_request_lookup (received c payload)
                      (S (length (chars HTTP_GET)))) as Hl.
        by apply (literal_prefix_survives (received c payload) _ _ _ Hl). }
      rewrite respond_srv in Hchg |- *.
      destruct (split_request _ _) as [hdrs1 [mark|]]; cbn [fst snd] in *;
        cbn [toggled fmap option_fmap option_map] in Hchg |- *; [|done].
      destruct (sscanf_lit_d _ _) as [alarm_param|] eqn:Hscan; [|done].
      by exists mark, alarm_param.
    + unfold tcp_server_recv_request in Hchg.
      destruct (strncmp_eq _ _ _) eqn:E; [by apply get_method_test in E|done].
  - unfold tcp_server_recv in Hchg. by rewrite Hclose in Hchg.
  - unfold tcp_server_sent in Hchg. destruct (_ <=? _);
      [by rewrite Hclose in Hchg|done].
  - unfold tcp_server_poll in Hchg. by rewrite Hclose in Hchg.
  - unfold tcp_server_err in Hchg. destruct (decide _);
      [done|by rewrite Hclose in Hchg].
Qed.

Lemma X11_alarm_changed_by_control_requests_only_witness :
  let ev := EvRecv (Some (chars "GETT/alarm?alarm=1")) in
  exists payload,
    ev = EvRecv (Some payload)
    /\ payload <> []
    /\ take (length (chars HTTP_GET)) (received accepted_state payload)
       = chars HTTP_GET
    /\ chars ALARM_CONTROL `prefix_of` request_path (received accepted_state payload)
    /\ exists (mark : nat) (alarm_param : Z),
         (split_request (received accepted_state payload)
            (S (length (chars HTTP_GET)))).2 = Some mark
         /\ sscanf_lit_d
              (drop mark (split_request (received accepted_state payload)
                            (S (length (chars HTTP_GET)))).1)
              ALARM_PARAM = Some alarm_param
         /\ alarm_active (srv (deliver env_ok ev accepted_state (main_state 0)))
            = negb (alarm_param =? 0).
Proof.
  intros ev.
  apply (X11_alarm_changed_by_control_requests_only env_ok ev accepted_state
           (main_state 0)).
  vm_compute. discriminate.
Defined.

Lemma respond_ends_well (env : lwip_results) (c : TCP_CONNECT_STATE_T)
    (state : TCP_SERVER_T) :
  let o := tcp_server_recv_respond env c state in
  (exists wr e, o = tcp_close_client_connection env state wr e)
  \/ (aborted o = false /\ ret o = ERR_OK /\ is_Some (conn o)).
Proof.
  cbv zeta. unfold tcp_server_recv_respond.
  destruct (_ <? _); [left; eauto|].
  destruct (0 <? result_len c); destruct (snprintf _ _ _) as [hdrs hlen];
    [destruct (_ <? _); [left; eauto|]|];
    (destruct (decide _); [|left; eauto]);
    (destruct (result_len c =? 0); [right; by eauto|]);
    (destruct (decide _); [right; by eauto|left; eauto]).
Qed.

(** X12. A callback that has called [tcp_abort] returns [ERR_ABRT] and has
    freed the connection state; one that returns [ERR_OK] has not aborted. *)
Theorem X12_abort_is_reported (env : lwip_results) (ev : event)
    (c : TCP_CONNECT_STATE_T) (state : TCP_SERVER_T) :
  let o := deliver env ev c state in
  (aborted o = true -> ret o = ERR_ABRT /\ conn o = None /\ close_err env <> ERR_OK)
  /\ (close_err env <> ERR_OK -> conn o = None -> aborted o = true).
Proof.
  cbv zeta.
  assert (Hclose : forall wr e,
            let o := tcp_close_client_connection env state wr e in
            (aborted o = true ->
             ret o = ERR_ABRT /\ conn o = None /\ close_err env <> ERR_OK)
            /\ (close_err env <> ERR_OK -> conn o = None -> aborted o = true)).
  { intros wr e. cbv zeta. unfold tcp_close_client_connection.
    destruct (decide _); cbn [aborted ret conn]; split; done. }
  destruct ev as [[payload|]|len| |err]; cbn [deliver].
  - unfold tcp_server_recv. destruct (_ <? _)%nat; [|by split].
    unfold tcp_server_recv_request. destruct (strncmp_eq _ _ _); [|by split].
    destruct (split_request _ _) as [hdrs1 params].
    destruct (alarm_control_content _ _ _ _ _) as [[len result'] state'].
    destruct (respond_ends_well env
                (mkConn (sent_len c) hdrs1 result' (header_len c) len) state')
      as [(wr & e & ->)|(Ha & Hr & [c' Hc])].
    + unfold tcp_close_client_connection.
      destruct (decide _); cbn [aborted ret conn]; split; done.
    + rewrite Ha, Hc. split; done.
  - apply Hclose.
  - unfold tcp_server_sent. destruct (_ <=? _); [apply Hclose|by split].
  - apply Hclose.
  - unfold tcp_server_err. destruct (decide _); [by split|apply Hclose].
Qed.

Lemma X12_abort_is_reported_witness :
  let env := mkLwip ERR_OK ERR_OK ERR_MEM in
  let o := deliver env EvPoll accepted_state (main_state 0) in
  aborted o = true /\ ret o = ERR_ABRT /\ conn o = None.
Proof.
  intros env o.
  destruct (X12_abort_is_reported env EvPoll accepted_state (main_state 0))
    as [Hrep Hab].
  fold o in Hrep, Hab.
  assert (Ha : aborted o = true) by (apply Hab; [discriminate|reflexivity]).
  destruct (Hrep Ha) as (Hr & Hc & _). done.
Defined.

(* ===================================================================== *)
(** ** Opening the server *)
(* ===================================================================== *)

(** X13. [tcp_server_open] succeeds exactly when lwIP gives a pcb, binds it
    and gives a listening pcb; from a state without listening pcb, the state
    holds one afterwards exactly on success.  Nothing else of the state
    changes, and the new pcb is left allocated without owner exactly when
    the bind fails. *)
Theorem X13_open_reports_listening (r : open_results) (state : TCP_SERVER_T) :
  let '(opened, state', leaked) := tcp_server_open r state in
  (opened = true
   <-> new_pcb r = true /\ bind_err r = ERR_OK /\ listen_pcb r = true)
  /\ (server_pcb state = false -> server_pcb state' = opened)
  /\ state' = set_server_pcb (server_pcb state') state
  /\ (leaked = true <-> new_pcb r = true /\ bind_err r <> ERR_OK).
Proof.
  unfold tcp_server_open. destruct r as [[] be []]; cbn [new_pcb bind_err listen_pcb negb];
    destruct (decide (be = ERR_OK)) as [->|Hbe]; cbn [set_server_pcb server_pcb];
    destruct state as [[] ? ? ? ? ? ?]; cbn [server_pcb set_server_pcb];
    split_and!; try done; try (split; intros; destruct_and?; done).
Qed.

(* ===================================================================== *)
(** ** The main loop *)
(* ===================================================================== *)

Lemma update_alarm_coherent (clk : clock) (state : TCP_SERVER_T) (hw : board) :
  outputs_coherent state hw ->
  outputs_coherent (update_alarm clk state hw).1 (update_alarm clk state hw).2.
Proof.
  intros (Hlevel & Hbeep & Hled). unfold update_alarm, outputs_coherent.
  destruct (alarm_active state); [|done].
  destruct (_ <=? _).
  - destruct (led_state hw) eqn:El; cbn [negb]; cbn.
    + done.
    + destruct (_ <=? _); cbn; done.
  - destruct (beep_active state) eqn:Eb; cbn [andb].
    + destruct (_ <=? _); cbn; rewrite ?Eb; split_and!; auto.
    + cbn. rewrite Eb. split_and!; auto.
Qed.

Lemma handle_input_server (i : input) (s : system) :
  sys_board (handle_input i s) = sys_board s
  /\ beep_active (sys_server (handle_input i s)) = beep_active (sys_server s)
  /\ (is_stop_key i = false ->
      complete (sys_server (handle_input i s)) = complete (sys_server s)).
Proof.
  destruct i as [key|pcb err cp ok|pcb env ev]; cbn [handle_input is_stop_key].
  - unfold key_pressed_func. destruct (_ || _); cbn; split_and!; done.
  - destruct (tcp_server_accept _ _ _).2; done.
  - destruct (sys_conns s !! pcb) as [c|]; [|done]. cbn [sys_board sys_server].
    rewrite deliver_srv. by destruct (sys_server s).
Qed.

Lemma handle_inputs_server (inputs : list input) (s : system) :
  let s' := foldl (fun s i => handle_input i s) s inputs in
  sys_board s' = sys_board s
  /\ beep_active (sys_server s') = beep_active (sys_server s)
  /\ (forallb (fun i => negb (is_stop_key i)) inputs = true ->
      complete (sys_server s') = complete (sys_server s)).
Proof.
  cbv zeta. revert s; induction inputs as [|i inputs IH]; intros s; [done|].
  cbn [foldl forallb].
  destruct (IH (handle_input i s)) as (Hb & Hp & Hc).
  destruct (handle_input_server i s) as (Hb1 & Hp1 & Hc1).
  rewrite Hb, Hp, Hb1, Hp1. split_and!; [done..|].
  intros Hk. apply andb_true_iff in Hk as [Hi Hk]. apply negb_true_iff in Hi.
  by rewrite Hc, Hc1.
Qed.

(** X14. Through the main loop, whatever the clock, the keys and the network
    bring, the buzzer is driven exactly while [beep_active] is set and only
    with the LED lit. *)
Theorem X14_outputs_stay_coherent (its : list iteration) (s : system) :
  outputs_coherent (sys_server s) (sys_board s) ->
  outputs_coherent (sys_server (main_loop its s)) (sys_board (main_loop its s)).
Proof.
  revert s; induction its as [|it its IH]; intros s Hs; [done|].
  cbn [main_loop]. destruct (complete (sys_server s)); [done|].
  pose proof (update_alarm_coherent (iter_clock it) _ _ Hs) as Ht.
  destruct (update_alarm _ _ _) as [state hw]. cbn [fst snd] in Ht.
  apply IH.
  destruct (handle_inputs_server (iter_inputs it)
              (mkSystem state hw (sys_conns s))) as (Hb & Hp & _).
  cbn [sys_board sys_server] in Hb, Hp.
  unfold outputs_coherent in *. by rewrite Hb, Hp.
Qed.

Lemma X14_outputs_stay_coherent_witness :
  let s := main_loop
             [mkIteration (mkClock 0 0 0 0)
                [InAccept 1 ERR_OK true true;
                 InConn 1 env_ok (EvRecv (Some (chars "GET /alarm?alarm=1 ")))];
              mkIteration (mkClock 10000 10001 10002 10003) []]
             (mkSystem (main_state 0) main_board ∅) in
  outputs_coherent (sys_server s) (sys_board s).
Proof.
  apply X14_outputs_stay_coherent. by vm_compute.
Defined.

Lemma main_loop_keeps_running (its : list iteration) (s : system) :
  complete (sys_server s) = false -> no_stop_key its = true ->
  complete (sys_server (main_loop its s)) = false.
Proof.
  revert s; induction its as [|it its IH]; intros s Hs Hk; [done|].
  cbn [no_stop_key forallb] in Hk. apply andb_true_iff in Hk as [Hit Hk].
  cbn [main_loop]. rewrite Hs.
  assert (Htick : complete (update_alarm (iter_clock it) (sys_server s)
                              (sys_board s)).1 = false).
  { rewrite <- Hs. unfold update_alarm.
    repeat match goal with
           | |- context [if ?b then _ else _] => destruct b
           end; done. }
  destruct (update_alarm _ _ _) as [state hw]. cbn [fst] in Htick.
  apply IH; [|done].
  destruct (handle_inputs_server (iter_inputs it)
              (mkSystem state hw (sys_conns s))) as (_ & _ & Hc).
  by rewrite Hc.
Qed.

(** X15. Nothing that arrives over the network stops the server: as long as
    no [d] or [D] key is read, [main], once started, is still in its loop. *)
Theorem X15_only_a_key_stops_main (b : boot) (its : list iteration) :
  state_calloc_ok b = true -> cyw43_arch_init b = 0 ->
  (tcp_server_open (open_res b)
     (mkServer false false (IP4_ADDR 192 168 4 1) false (boot_time b) false 0)).1.1
  = true ->
  no_stop_key its = true ->
  (main b its).1 = None
  /\ exists s, (main b its).2 = Some s /\ complete (sys_server s) = false.
Proof.
  intros Hc Hi Ho Hk. unfold main. rewrite Hc, Hi. cbn [negb Z.eqb].
  destruct (tcp_server_open _ _) as [[opened state1] leaked]. cbn [fst] in Ho.
  subst opened. cbn [negb].
  pose proof (main_loop_keeps_running its
                (mkSystem (set_complete false state1) main_board ∅) eq_refl Hk)
    as Hrun.
  rewrite Hrun. eauto.
Qed.

Lemma X15_only_a_key_stops_main_witness :
  let b := mkBoot true 0 (mkOpen true ERR_OK true) 0 in
  let its := [mkIteration (mkClock 0 0 0 0)
                [InAccept 1 ERR_OK true true;
                 InConn 1 env_ok (EvRecv (Some (chars "GET /alarm?alarm=1 ")));
                 InKey 120]] in
  (main b its).1 = None
  /\ exists s, (main b its).2 = Some s /\ complete (sys_server s) = false.
Proof.
  intros b its. by apply (X15_only_a_key_stops_main b its).
Defined.

(** X16. [main] returns 1 exactly when its set-up fails, before the loop is
    entered; it returns 0 only after a [d] or [D] key, and then the LED and
    the buzzer are off and the listening pcb is closed. *)
Theorem X16_main_return_values (b : boot) (its : list iteration) :
  ((main b its).1 = Some 1
   <-> state_calloc_ok b = false \/ cyw43_arch_init b <> 0
       \/ (tcp_server_open (open_res b)
             (mkServer false false (IP4_ADDR 192 168 4 1) false (boot_time b)
                       false 0)).1.1 = false)
  /\ ((main b its).1 = Some 0 ->
      no_stop_key its = false
      /\ exists s, (main b its).2 = Some s
           /\ red_led (sys_board s) = false /\ buzzer_level (sys_board s) = 0
           /\ server_pcb (sys_server s) = false
           /\ complete (sys_server s) = true).
Proof.
  unfold main. destruct (state_calloc_ok b); cbn [negb].
  2:{ split; [split; auto|done]. }
  destruct (Z.eqb_spec (cyw43_arch_init b) 0) as [Hi|Hi]; cbn [negb].
  2:{ split; [split; auto|done]. }
  destruct (tcp_server_open _ _) as [[opened state1] leaked]. cbn [fst].
  destruct opened; cbn [negb].
  2:{ split; [split; auto|done]. }
  set (s0 := mkSystem (set_complete false state1) main_board ∅).
  destruct (complete (sys_server (main_loop its s0))) eqn:Hdone; cbn [fst snd].
  - split; [split; [done|intros [|[|]]; done]|]. intros _. split.
    + destruct (no_stop_key its) eqn:Hk; [|done].
      pose proof (main_loop_keeps_running its s0 eq_refl Hk). congruence.
    + eexists. split; [done|]. cbn [sys_board sys_server red_led buzzer_level].
      split_and!; [done|done| |].
      * unfold tcp_server_close.
        destruct (server_pcb (sys_server (main_loop its s0))) eqn:E; done.
      * unfold tcp_server_close.
        destruct (server_pcb (sys_server (main_loop its s0))); done.
  - split; [split; [done|intros [|[|]]; done]|done].
Qed.

Lemma X16_main_return_values_witness :
  let b := mkBoot true 0 (mkOpen true ERR_OK true) 0 in
  let its := [mkIteration (mkClock 0 0 0 0)
                [InAccept 1 ERR_OK true true;
                 InConn 1 env_ok (EvRecv (Some (chars "GET /alarm?alarm=1 ")))];
              mkIteration (mkClock 10000 10000 10000 10000) [InKey 100];
              mkIteration (mkClock 20000 20000 20000 20000) []] in
  (main b its).1 = Some 0
  /\ no_stop_key its = false
  /\ exists s, (main b its).2 = Some s
       /\ red_led (sys_board s) = false /\ buzzer_level (sys_board s) = 0
       /\ server_pcb (sys_server s) = false
       /\ complete (sys_server s) = true.
Proof.
  intros b its.
  assert (H0 : (main b its).1 = Some 0) by (by vm_compute).
  split; [exact H0|].
  destruct (X16_main_return_values b its) as [_ Hzero]. exact (Hzero H0).
Defined.

(* ===================================================================== *)
(** ** The blink cadence *)
(* ===================================================================== *)

Lemma delayed_by_us_small (t us : Z) :
  0 <= t < 2 ^ 62 -> 0 <= us < 2 ^ 62 -> delayed_by_us t us = t + us.
Proof.
  intros Ht Hus. unfold delayed_by_us, to_uint64, to_int64.
  rewrite (Z.mod_small (t + us)) by lia.
  rewrite Z.mod_small by lia.
  destruct (Z.ltb_spec (t + us + 2 ^ 63 - 2 ^ 63) 0); lia.
Qed.

Lemma absolute_time_diff_us_small (from to : Z) :
  - 2 ^ 63 <= to - from < 2 ^ 63 -> absolute_time_diff_us from to = to - from.
Proof.
  intros H. unfold absolute_time_diff_us, to_int64.
  rewrite Z.mod_small by lia. lia.
Qed.

(** X17. After a tick that toggles, the LED is not toggled again by a tick
    whose clock is less than the toggle interval later. *)
Theorem X17_toggles_are_an_interval_apart (clk1 clk2 : clock)
    (state : TCP_SERVER_T) (hw : board) :
  alarm_active state = true ->
  absolute_time_diff_us (now_toggle_check clk1) (next_toggle_time state) <= 0 ->
  0 <= now_next_toggle clk1 < 2 ^ 62 ->
  now_next_toggle clk1 <= now_toggle_check clk2
    < now_next_toggle clk1 + BEEP_INTERVAL_MS * 1000 ->
  let tick1 := update_alarm clk1 state hw in
  let tick2 := update_alarm clk2 tick1.1 tick1.2 in
  red_led tick1.2 = negb (led_state hw)
  /\ red_led tick2.2 = red_led tick1.2
  /\ led_state tick2.2 = led_state tick1.2
  /\ next_toggle_time tick2.1 = now_next_toggle clk1 + BEEP_INTERVAL_MS * 1000.
Proof.
  intros Ha Hdue Ht3 Ht tick1 tick2.
  assert (H1 : alarm_active tick1.1 = true
               /\ next_toggle_time tick1.1
                  = now_next_toggle clk1 + BEEP_INTERVAL_MS * 1000
               /\ red_led tick1.2 = negb (led_state hw)).
  { subst tick1. unfold update_alarm. rewrite Ha.
    apply Z.leb_le in Hdue. rewrite Hdue.
    rewrite (delayed_by_us_small (now_next_toggle clk1))
      by (unfold BEEP_INTERVAL_MS; lia).
    repeat match goal with
           | |- context [if ?b then _ else _] => destruct b
           end; cbn; by rewrite ?Ha. }
  destruct H1 as (Ha1 & Hn1 & Hr1). split; [done|].
  subst tick2. destruct tick1 as [state1 hw1]. cbn [fst snd] in *.
  unfold update_alarm. rewrite Ha1, Hn1.
  rewrite absolute_time_diff_us_small by (unfold BEEP_INTERVAL_MS in *; lia).
  replace (_ <=? 0) with false
    by (symmetry; apply Z.leb_gt; unfold BEEP_INTERVAL_MS in *; lia).
  repeat match goal with
         | |- context [if ?b then _ else _] => destruct b
         end; cbn; done.
Qed.

Lemma X17_toggles_are_an_interval_apart_witness :
  let armed := set_alarm_active true (main_state 0) in
  let tick1 := update_alarm (mkClock 0 0 0 0) armed main_board in
  let tick2 := update_alarm (mkClock 50000 50000 50000 50000) tick1.1 tick1.2 in
  red_led tick1.2 = negb (led_state main_board)
  /\ red_led tick2.2 = red_led tick1.2
  /\ led_state tick2.2 = led_state tick1.2
  /\ next_toggle_time tick2.1 = 0 + BEEP_INTERVAL_MS * 1000.
Proof.
  apply (X17_toggles_are_an_interval_apart (mkClock 0 0 0 0)
           (mkClock 50000 50000 50000 50000)
           (set_alarm_active true (main_state 0)) main_board).
  - reflexivity.
  - by vm_compute.
  - cbn. lia.
  - unfold BEEP_INTERVAL_MS. cbn. lia.
Defined.

(** X18. A tick with the alarm off keeps the blink phase [led_state]: when
    the alarm is disarmed with the phase on and armed again, the first toggle
    turns the phase off, so it leaves the LED dark and starts no pulse. *)
Theorem X18_blink_phase_outlives_disarming (clk1 clk2 : clock)
    (state : TCP_SERVER_T) (hw : board) :
  alarm_active state = false ->
  led_state hw = true ->
  absolute_time_diff_us (now_toggle_check clk2) (next_toggle_time state) <= 0 ->
  let idle := update_alarm clk1 state hw in
  let tick := update_alarm clk2 (set_alarm_active true idle.1) idle.2 in
  led_state idle.2 = true /\ red_led idle.2 = false
  /\ led_state tick.2 = false /\ red_led tick.2 = false
  /\ beep_active tick.1 = false /\ buzzer_level tick.2 = 0.
Proof.
  intros Ha Hled Hdue idle tick.
  assert (Hidle : idle = (set_beep_active false state,
                          mkBoard (led_state hw) false 0
                                  ("Sistema", "em repouso")%string)).
  { subst idle. unfold update_alarm. by rewrite Ha. }
  subst tick. rewrite Hidle. cbn [fst snd led_state red_led].
  split; [done|]. split; [done|].
  unfold update_alarm.
  cbn [alarm_active set_alarm_active set_beep_active next_toggle_time led_state].
  apply Z.leb_le in Hdue. rewrite Hdue, Hled. cbn. done.
Qed.

Lemma X18_blink_phase_outlives_disarming_witness :
  let state := mkServer true false (IP4_ADDR 192 168 4 1) false 100000 true 200000 in
  let hw := mkBoard true true 31250 ("ALARME", "EVACUAR")%string in
  let idle := update_alarm (mkClock 110000 110000 110000 110000) state hw in
  let tick := update_alarm (mkClock 120000 120000 120000 120000)
                (set_alarm_active true idle.1) idle.2 in
  led_state idle.2 = true /\ red_led idle.2 = false
  /\ led_state tick.2 = false /\ red_led tick.2 = false
  /\ beep_active tick.1 = false /\ buzzer_level tick.2 = 0.
Proof.
  apply (X18_blink_phase_outlives_disarming
           (mkClock 110000 110000 110000 110000)
           (mkClock 120000 120000 120000 120000)
           (mkServer true false (IP4_ADDR 192 168 4 1) false 100000 true 200000)
           (mkBoard true true 31250 ("ALARME", "EVACUAR")%string));
    [reflexivity | reflexivity | by vm_compute].
Defined.
